(** * web3d: the benchmark harness, its statistics and the sweep runner

    A shallow embedding of the measurement engine of the web3d benchmark:
    - [Stats]: the statistics helpers ([calculateStatistics] of
      metrics/Harness.js and [getMean]/[getStdDev]/[getP95] of
      automation/runner.js);
    - [Browser]: the page globals the harnesses write to;
    - [Harness]: the warm-up/record/complete harness (the [BenchmarkHarness]
      class with [isWarmingUp]);
    - [FrameHarness]: the earlier frame-count harness (the [BenchmarkHarness]
      class with [frameCount]);
    - [Scenario]: the frame loop of scenarios/Scenario.js;
    - [Runner]: the sweep of automation/runner.js.

    JavaScript numbers are IEEE 754 binary64 values; they are modelled by
    Rocq's primitive floats, which are the same binary64 values with the same
    round-to-nearest-even operations.  Counters that only ever hold integers
    ([frameCount], [activeFrameCount], array lengths) are [nat] or [Z].
    Clock readings ([performance.now()], performance marks, GPU timestamps)
    and the outcome of [render()] and of a trial's page are inputs of the
    methods that read them. *)

From Stdlib Require Import String Ascii ZArith List Lia Bool Arith DecimalString.
From Stdlib Require Import Sorting.Permutation Sorting.Sorted.
From Stdlib Require Import Floats.
Import ListNotations.

Set Warnings "-inexact-float".

(** ** JavaScript numbers *)

Module JS.

Definition number := float.

(** An integer counter as a number. *)
Definition of_Z (z : Z) : number := PrimFloat.of_uint63 (Uint63.of_Z z).

(** [arr.length] as a number. *)
Definition of_nat (n : nat) : number := of_Z (Z.of_nat n).

(** [Math.floor], read as an integer: the value is only ever used as an
    array index.  [None] stands for NaN and the infinities. *)
Definition Math_floor (x : number) : option Z :=
  match Prim2SF x with
  | S754_zero _ => Some 0%Z
  | S754_finite s m e => Some (Z.shiftl (if s then Zneg m else Zpos m) e)
  | S754_infinity _ => None
  | S754_nan => None
  end.

(** [Math.pow(x, 2)]: the correctly rounded square. *)
Definition Math_pow2 (x : number) : number := (x * x)%float.

Definition Math_sqrt (x : number) : number := PrimFloat.sqrt x.

(** [arr[i]] for a computed index: [undefined] ([None]) when the index is
    not an integer within the array. *)
Definition index {A} (arr : list A) (i : option Z) : option A :=
  match i with
  | Some z => if (z <? 0)%Z then None else nth_error arr (Z.to_nat z)
  | None => None
  end.

(** [x || 0] on a number: [0] replaces the falsy numbers (zeros and NaN). *)
Definition or_zero (x : number) : number :=
  if (PrimFloat.eqb x 0 || PrimFloat.is_nan x)%bool then 0%float else x.

(** [[...arr].sort((a, b) => a - b)]: a stable sort by the sign of the
    comparator; [a] goes after [b] exactly when [a - b > 0]. *)
Fixpoint insert (x : number) (l : list number) : list number :=
  match l with
  | [] => [x]
  | y :: l' =>
      if PrimFloat.ltb 0 (x - y) then y :: insert x l' else x :: y :: l'
  end.

Definition sort (arr : list number) : list number :=
  fold_right insert [] arr.

(** What the comparator says of two neighbours of a sorted array: it put [b]
    after [a], or it did not put [a] after [b]. *)
Definition ascending (a b : number) : Prop :=
  PrimFloat.ltb 0 (b - a) = true \/ PrimFloat.ltb 0 (a - b) = false.

End JS.

(** ** The statistics helpers *)

Module Stats.
Import JS.
Local Open Scope float_scope.

(** [arr.reduce((a, b) => a + b, 0)] *)
Definition sum (arr : list number) : number :=
  fold_left (fun a b => a + b) arr 0.

(** [sum(arr) / arr.length] *)
Definition mean (arr : list number) : number :=
  sum arr / of_nat (length arr).

(** [arr.reduce((acc, val) => acc + Math.pow(val - m, 2), 0) / arr.length] *)
Definition variance (arr : list number) (m : number) : number :=
  fold_left (fun acc val => acc + Math_pow2 (val - m)) arr 0
  / of_nat (length arr).

(** [Math.sqrt(variance(arr, mean(arr)))] *)
Definition stdDev (arr : list number) : number :=
  Math_sqrt (variance arr (mean arr)).

(** [Math.floor(sorted.length * 0.95)] *)
Definition idx95 (len : nat) : option Z :=
  Math_floor (of_nat len * 0.95).

Definition p95 (arr : list number) : option number :=
  let sorted := sort arr in
  index sorted (idx95 (length sorted)).

(** The helpers of automation/runner.js. *)
Definition getMean (arr : list number) : number :=
  fold_left (fun a b => a + b) arr 0 / of_nat (length arr).

Definition getStdDev (arr : list number) (mean : number) : number :=
  Math_sqrt
    (fold_left (fun sq n => sq + Math_pow2 (n - mean)) arr 0
     / of_nat (length arr)).

Definition getP95 (arr : list number) : option number :=
  let sorted := sort arr in
  index sorted (Math_floor (of_nat (length sorted) * 0.95)).

(** *** The statistics as the specification words them *)

(** [floor(0.95 * len)] in exact arithmetic. *)
Definition nearest_rank (len : nat) : Z := (95 * Z.of_nat len / 100)%Z.

(** The element of the ascending array at the nearest rank. *)
Definition p95_spec (arr : list number) : option number :=
  nth_error (sort arr) (Z.to_nat (nearest_rank (length arr))).

(** [sqrt(mean((x - mean(xs))^2 for x in xs))] *)
Definition stddev_spec (xs : list number) : number :=
  Math_sqrt (mean (map (fun x => Math_pow2 (x - mean xs)) xs)).

(** The sample-corrected deviation, which the code does not compute. *)
Definition stddev_sample (xs : list number) : number :=
  Math_sqrt
    (sum (map (fun x => Math_pow2 (x - mean xs)) xs)
     / of_nat (length xs - 1)).

(** [Math.floor(n * 0.95)] agrees with [nearest_rank] on the [fuel] lengths
    from [len] on. *)
Fixpoint idx95_agrees (fuel : nat) (len : Z) : bool :=
  match fuel with
  | O => true
  | S fuel' =>
      match Math_floor (of_Z len * 0.95) with
      | Some i => (i =? 95 * len / 100)%Z
      | None => false
      end && idx95_agrees fuel' (Z.succ len)
  end.

(** The lengths up to which the agreement is checked by evaluation. *)
Definition checked_lengths : nat := Z.to_nat 200000.

End Stats.

(** ** The browser globals a harness writes to *)

(** [window.__BENCHMARK_RESULTS__] and the [detail] of the completion event
    hold a reference to the harness's one results object, not a copy: the
    page records that the reference has been published and how many events
    were dispatched, and a reader sees the results of the harness as they are
    when read. *)

Module Browser.

Record Window := mkWindow {
  BENCHMARK_RESULTS : bool;  (* window.__BENCHMARK_RESULTS__ is this.results *)
  BENCHMARK_ERROR : option string;  (* window.__BENCHMARK_ERROR__ *)
  completeEvents : nat;  (* 'benchmark-complete' events dispatched so far *)
  statusText : string;  (* uiStatus.textContent *)
  statusColor : string;  (* uiStatus.style.color *)
  fpsText : option JS.number;  (* uiFps.textContent, before toFixed(1) *)
  frameTimeText : option JS.number;  (* uiFrameTime.textContent, before toFixed(2) *)
  errorOverlay : option string;  (* text of the shown error overlay *)
  consoleErrors : list string  (* console.error lines *)
}.

Definition set_BENCHMARK_RESULTS (v : bool) (w : Window) : Window :=
  mkWindow v (BENCHMARK_ERROR w) (completeEvents w) (statusText w)
    (statusColor w) (fpsText w) (frameTimeText w) (errorOverlay w)
    (consoleErrors w).
Definition set_BENCHMARK_ERROR (v : option string) (w : Window) : Window :=
  mkWindow (BENCHMARK_RESULTS w) v (completeEvents w) (statusText w)
    (statusColor w) (fpsText w) (frameTimeText w) (errorOverlay w)
    (consoleErrors w).
Definition set_completeEvents (v : nat) (w : Window) : Window :=
  mkWindow (BENCHMARK_RESULTS w) (BENCHMARK_ERROR w) v (statusText w)
    (statusColor w) (fpsText w) (frameTimeText w) (errorOverlay w)
    (consoleErrors w).
Definition set_statusText (v : string) (w : Window) : Window :=
  mkWindow (BENCHMARK_RESULTS w) (BENCHMARK_ERROR w) (completeEvents w) v
    (statusColor w) (fpsText w) (frameTimeText w) (errorOverlay w)
    (consoleErrors w).
Definition set_statusColor (v : string) (w : Window) : Window :=
  mkWindow (BENCHMARK_RESULTS w) (BENCHMARK_ERROR w) (completeEvents w)
    (statusText w) v (fpsText w) (frameTimeText w) (errorOverlay w)
    (consoleErrors w).
Definition set_fpsText (v : option JS.number) (w : Window) : Window :=
  mkWindow (BENCHMARK_RESULTS w) (BENCHMARK_ERROR w) (completeEvents w)
    (statusText w) (statusColor w) v (frameTimeText w) (errorOverlay w)
    (consoleErrors w).
Definition set_frameTimeText (v : option JS.number) (w : Window) : Window :=
  mkWindow (BENCHMARK_RESULTS w) (BENCHMARK_ERROR w) (completeEvents w)
    (statusText w) (statusColor w) (fpsText w) v (errorOverlay w)
    (consoleErrors w).
Definition set_errorOverlay (v : option string) (w : Window) : Window :=
  mkWindow (BENCHMARK_RESULTS w) (BENCHMARK_ERROR w) (completeEvents w)
    (statusText w) (statusColor w) (fpsText w) (frameTimeText w) v
    (consoleErrors w).
Definition set_consoleErrors (v : list string) (w : Window) : Window :=
  mkWindow (BENCHMARK_RESULTS w) (BENCHMARK_ERROR w) (completeEvents w)
    (statusText w) (statusColor w) (fpsText w) (frameTimeText w)
    (errorOverlay w) v.

(** A freshly loaded page. *)
Definition fresh : Window :=
  mkWindow false None 0 EmptyString EmptyString None None None [].

End Browser.

(** ** The harness with a warm-up phase *)

Module Harness.
Import JS Browser.
Local Open Scope float_scope.

Record Results := mkResults {
  frames : list number;
  cpuTimes : list number;
  gpuTimes : list number;  (* WebGPU only *)
  totalTime : number;
  fps : number;
  initTime : number;
  meanFrameTime : number;
  stdFrameTime : number;
  p95FrameTime : option number;  (* None is undefined *)
  meanCpuTime : number;
  meanGpuTime : number
}.

Definition set_frames (v : list number) (r : Results) : Results :=
  mkResults v (cpuTimes r) (gpuTimes r) (totalTime r) (fps r) (initTime r)
    (meanFrameTime r) (stdFrameTime r) (p95FrameTime r) (meanCpuTime r)
    (meanGpuTime r).
Definition set_cpuTimes (v : list number) (r : Results) : Results :=
  mkResults (frames r) v (gpuTimes r) (totalTime r) (fps r) (initTime r)
    (meanFrameTime r) (stdFrameTime r) (p95FrameTime r) (meanCpuTime r)
    (meanGpuTime r).
Definition set_gpuTimes (v : list number) (r : Results) : Results :=
  mkResults (frames r) (cpuTimes r) v (totalTime r) (fps r) (initTime r)
    (meanFrameTime r) (stdFrameTime r) (p95FrameTime r) (meanCpuTime r)
    (meanGpuTime r).
Definition set_totalTime (v : number) (r : Results) : Results :=
  mkResults (frames r) (cpuTimes r) (gpuTimes r) v (fps r) (initTime r)
    (meanFrameTime r) (stdFrameTime r) (p95FrameTime r) (meanCpuTime r)
    (meanGpuTime r).
Definition set_fps (v : number) (r : Results) : Results :=
  mkResults (frames r) (cpuTimes r) (gpuTimes r) (totalTime r) v
    (initTime r) (meanFrameTime r) (stdFrameTime r) (p95FrameTime r)
    (meanCpuTime r) (meanGpuTime r).
Definition set_initTime (v : number) (r : Results) : Results :=
  mkResults (frames r) (cpuTimes r) (gpuTimes r) (totalTime r) (fps r) v
    (meanFrameTime r) (stdFrameTime r) (p95FrameTime r) (meanCpuTime r)
    (meanGpuTime r).
Definition set_meanFrameTime (v : number) (r : Results) : Results :=
  mkResults (frames r) (cpuTimes r) (gpuTimes r) (totalTime r) (fps r)
    (initTime r) v (stdFrameTime r) (p95FrameTime r) (meanCpuTime r)
    (meanGpuTime r).
Definition set_stdFrameTime (v : number) (r : Results) : Results :=
  mkResults (frames r) (cpuTimes r) (gpuTimes r) (totalTime r) (fps r)
    (initTime r) (meanFrameTime r) v (p95FrameTime r) (meanCpuTime r)
    (meanGpuTime r).
Definition set_p95FrameTime (v : option number) (r : Results) : Results :=
  mkResults (frames r) (cpuTimes r) (gpuTimes r) (totalTime r) (fps r)
    (initTime r) (meanFrameTime r) (stdFrameTime r) v (meanCpuTime r)
    (meanGpuTime r).
Definition set_meanCpuTime (v : number) (r : Results) : Results :=
  mkResults (frames r) (cpuTimes r) (gpuTimes r) (totalTime r) (fps r)
    (initTime r) (meanFrameTime r) (stdFrameTime r) (p95FrameTime r) v
    (meanGpuTime r).
Definition set_meanGpuTime (v : number) (r : Results) : Results :=
  mkResults (frames r) (cpuTimes r) (gpuTimes r) (totalTime r) (fps r)
    (initTime r) (meanFrameTime r) (stdFrameTime r) (p95FrameTime r)
    (meanCpuTime r) v.

Record BenchmarkHarness := mkHarness {
  results : Results;
  warmupDuration : number;
  targetDuration : number;
  durationMode : string;
  targetFrames : Z;
  initialized : bool;
  isWarmingUp : bool;
  isComplete : bool;
  initStartTime : number;
  startTime : number;
  lastFrameTime : number;
  activeFrameCount : nat;
  warmupFrameCount : nat;
  gpuSupportTimestamp : bool;
  uiAccumulator : number;
  uiFrameCount : nat;
  cpuStartMark : option number;  (* latest 'frame-cpu-start' performance mark *)
  window : Window
}.

Definition set_results (v : Results) (h : BenchmarkHarness)
  : BenchmarkHarness :=
  mkHarness v (warmupDuration h) (targetDuration h) (durationMode h)
    (targetFrames h) (initialized h) (isWarmingUp h) (isComplete h)
    (initStartTime h) (startTime h) (lastFrameTime h) (activeFrameCount h)
    (warmupFrameCount h) (gpuSupportTimestamp h) (uiAccumulator h)
    (uiFrameCount h) (cpuStartMark h) (window h).
Definition set_warmupDuration (v : number) (h : BenchmarkHarness)
  : BenchmarkHarness :=
  mkHarness (results h) v (targetDuration h) (durationMode h)
    (targetFrames h) (initialized h) (isWarmingUp h) (isComplete h)
    (initStartTime h) (startTime h) (lastFrameTime h) (activeFrameCount h)
    (warmupFrameCount h) (gpuSupportTimestamp h) (uiAccumulator h)
    (uiFrameCount h) (cpuStartMark h) (window h).
Definition set_targetDuration (v : number) (h : BenchmarkHarness)
  : BenchmarkHarness :=
  mkHarness (results h) (warmupDuration h) v (durationMode h)
    (targetFrames h) (initialized h) (isWarmingUp h) (isComplete h)
    (initStartTime h) (startTime h) (lastFrameTime h) (activeFrameCount h)
    (warmupFrameCount h) (gpuSupportTimestamp h) (uiAccumulator h)
    (uiFrameCount h) (cpuStartMark h) (window h).
Definition set_durationMode (v : string) (h : BenchmarkHarness)
  : BenchmarkHarness :=
  mkHarness (results h) (warmupDuration h) (targetDuration h) v
    (targetFrames h) (initialized h) (isWarmingUp h) (isComplete h)
    (initStartTime h) (startTime h) (lastFrameTime h) (activeFrameCount h)
    (warmupFrameCount h) (gpuSupportTimestamp h) (uiAccumulator h)
    (uiFrameCount h) (cpuStartMark h) (window h).
Definition set_targetFrames (v : Z) (h : BenchmarkHarness)
  : BenchmarkHarness :=
  mkHarness (results h) (warmupDuration h) (targetDuration h)
    (durationMode h) v (initialized h) (isWarmingUp h) (isComplete h)
    (initStartTime h) (startTime h) (lastFrameTime h) (activeFrameCount h)
    (warmupFrameCount h) (gpuSupportTimestamp h) (uiAccumulator h)
    (uiFrameCount h) (cpuStartMark h) (window h).
Definition set_initialized (v : bool) (h : BenchmarkHarness)
  : BenchmarkHarness :=
  mkHarness (results h) (warmupDuration h) (targetDuration h)
    (durationMode h) (targetFrames h) v (isWarmingUp h) (isComplete h)
    (initStartTime h) (startTime h) (lastFrameTime h) (activeFrameCount h)
    (warmupFrameCount h) (gpuSupportTimestamp h) (uiAccumulator h)
    (uiFrameCount h) (cpuStartMark h) (window h).
Definition set_isWarmingUp (v : bool) (h : BenchmarkHarness)
  : BenchmarkHarness :=
  mkHarness (results h) (warmupDuration h) (targetDuration h)
    (durationMode h) (targetFrames h) (initialized h) v (isComplete h)
    (initStartTime h) (startTime h) (lastFrameTime h) (activeFrameCount h)
    (warmupFrameCount h) (gpuSupportTimestamp h) (uiAccumulator h)
    (uiFrameCount h) (cpuStartMark h) (window h).
Definition set_isComplete (v : bool) (h : BenchmarkHarness)
  : BenchmarkHarness :=
  mkHarness (results h) (warmupDuration h) (targetDuration h)
    (durationMode h) (targetFrames h) (initialized h) (isWarmingUp h) v
    (initStartTime h) (startTime h) (lastFrameTime h) (activeFrameCount h)
    (warmupFrameCount h) (gpuSupportTimestamp h) (uiAccumulator h)
    (uiFrameCount h) (cpuStartMark h) (window h).
Definition set_initStartTime (v : number) (h : BenchmarkHarness)
  : BenchmarkHarness :=
  mkHarness (results h) (warmupDuration h) (targetDuration h)
    (durationMode h) (targetFrames h) (initialized h) (isWarmingUp h)
    (isComplete h) v (startTime h) (lastFrameTime h) (activeFrameCount h)
    (warmupFrameCount h) (gpuSupportTimestamp h) (uiAccumulator h)
    (uiFrameCount h) (cpuStartMark h) (window h).
Definition set_startTime (v : number) (h : BenchmarkHarness)
  : BenchmarkHarness :=
  mkHarness (results h) (warmupDuration h) (targetDuration h)
    (durationMode h) (targetFrames h) (initialized h) (isWarmingUp h)
    (isComplete h) (initStartTime h) v (lastFrameTime h) (activeFrameCount h)
    (warmupFrameCount h) (gpuSupportTimestamp h) (uiAccumulator h)
    (uiFrameCount h) (cpuStartMark h) (window h).
Definition set_lastFrameTime (v : number) (h : BenchmarkHarness)
  : BenchmarkHarness :=
  mkHarness (results h) (warmupDuration h) (targetDuration h)
    (durationMode h) (targetFrames h) (initialized h) (isWarmingUp h)
    (isComplete h) (initStartTime h) (startTime h) v (activeFrameCount h)
    (warmupFrameCount h) (gpuSupportTimestamp h) (uiAccumulator h)
    (uiFrameCount h) (cpuStartMark h) (window h).
Definition set_activeFrameCount (v : nat) (h : BenchmarkHarness)
  : BenchmarkHarness :=
  mkHarness (results h) (warmupDuration h) (targetDuration h)
    (durationMode h) (targetFrames h) (initialized h) (isWarmingUp h)
    (isComplete h) (initStartTime h) (startTime h) (lastFrameTime h) v
    (warmupFrameCount h) (gpuSupportTimestamp h) (uiAccumulator h)
    (uiFrameCount h) (cpuStartMark h) (window h).
Definition set_warmupFrameCount (v : nat) (h : BenchmarkHarness)
  : BenchmarkHarness :=
  mkHarness (results h) (warmupDuration h) (targetDuration h)
    (durationMode h) (targetFrames h) (initialized h) (isWarmingUp h)
    (isComplete h) (initStartTime h) (startTime h) (lastFrameTime h)
    (activeFrameCount h) v (gpuSupportTimestamp h) (uiAccumulator h)
    (uiFrameCount h) (cpuStartMark h) (window h).
Definition set_gpuSupportTimestamp (v : bool) (h : BenchmarkHarness)
  : BenchmarkHarness :=
  mkHarness (results h) (warmupDuration h) (targetDuration h)
    (durationMode h) (targetFrames h) (initialized h) (isWarmingUp h)
    (isComplete h) (initStartTime h) (startTime h) (lastFrameTime h)
    (activeFrameCount h) (warmupFrameCount h) v (uiAccumulator h)
    (uiFrameCount h) (cpuStartMark h) (window h).
Definition set_uiAccumulator (v : number) (h : BenchmarkHarness)
  : BenchmarkHarness :=
  mkHarness (results h) (warmupDuration h) (targetDuration h)
    (durationMode h) (targetFrames h) (initialized h) (isWarmingUp h)
    (isComplete h) (initStartTime h) (startTime h) (lastFrameTime h)
    (activeFrameCount h) (warmupFrameCount h) (gpuSupportTimestamp h) v
    (uiFrameCount h) (cpuStartMark h) (window h).
Definition set_uiFrameCount (v : nat) (h : BenchmarkHarness)
  : BenchmarkHarness :=
  mkHarness (results h) (warmupDuration h) (targetDuration h)
    (durationMode h) (targetFrames h) (initialized h) (isWarmingUp h)
    (isComplete h) (initStartTime h) (startTime h) (lastFrameTime h)
    (activeFrameCount h) (warmupFrameCount h) (gpuSupportTimestamp h)
    (uiAccumulator h) v (cpuStartMark h) (window h).
Definition set_cpuStartMark (v : option number) (h : BenchmarkHarness)
  : BenchmarkHarness :=
  mkHarness (results h) (warmupDuration h) (targetDuration h)
    (durationMode h) (targetFrames h) (initialized h) (isWarmingUp h)
    (isComplete h) (initStartTime h) (startTime h) (lastFrameTime h)
    (activeFrameCount h) (warmupFrameCount h) (gpuSupportTimestamp h)
    (uiAccumulator h) (uiFrameCount h) v (window h).
Definition set_window (v : Window) (h : BenchmarkHarness) : BenchmarkHarness :=
  mkHarness (results h) (warmupDuration h) (targetDuration h)
    (durationMode h) (targetFrames h) (initialized h) (isWarmingUp h)
    (isComplete h) (initStartTime h) (startTime h) (lastFrameTime h)
    (activeFrameCount h) (warmupFrameCount h) (gpuSupportTimestamp h)
    (uiAccumulator h) (uiFrameCount h) (cpuStartMark h) v.

(** GPU objects (device, query set, buffers) are opaque handles and are left
    out; what the harness writes into a command encoder is kept. *)
Inductive GPUCommand :=
| WriteTimestamp (queryIndex : nat)
| ResolveQuerySet
| CopyBufferToBuffer.

Definition resetResults (h : BenchmarkHarness) : BenchmarkHarness :=
  set_results (mkResults [] [] [] 0 0 0 0 0 (Some 0) 0 0) h.

(** [new BenchmarkHarness()] in the page [w]. *)
Definition new (w : Window) : BenchmarkHarness :=
  mkHarness (mkResults [] [] [] 0 0 0 0 0 (Some 0) 0 0)
    1000 3 "time" 120
    false true false
    0 0 0 0%nat 0%nat
    false
    0 0%nat
    None w.

(** *** Timers *)

Definition startInitTimer (now : number) (h : BenchmarkHarness)
  : BenchmarkHarness :=
  set_initStartTime now h.

(** [now1] and [now2] are the two readings of [performance.now()]. *)
Definition endInitTimer (now1 now2 : number) (h : BenchmarkHarness)
  : BenchmarkHarness :=
  let h := set_results (set_initTime (now1 - initStartTime h) (results h)) h in
  let h := set_initialized true h in
  let h := set_startTime now2 h in
  let h := set_lastFrameTime (startTime h) h in
  set_window
    (set_statusColor "#f39c12" (set_statusText "Warming Up..." (window h))) h.

(** *** WebGPU timestamps *)

(** [hasTimestampQuery] is [device.features.has('timestamp-query')]. *)
Definition initWebGPUTimestamps (hasTimestampQuery : bool)
  (h : BenchmarkHarness) : BenchmarkHarness :=
  if hasTimestampQuery then set_gpuSupportTimestamp true h
  else set_gpuSupportTimestamp false h.

Definition gpuInactive (h : BenchmarkHarness) : bool :=
  negb (gpuSupportTimestamp h) || isWarmingUp h || isComplete h.

Definition beginGPUTimestamp (h : BenchmarkHarness)
  (commandEncoder : list GPUCommand) : list GPUCommand :=
  if gpuInactive h then commandEncoder
  else commandEncoder ++ [WriteTimestamp 0].

Definition endGPUTimestamp (h : BenchmarkHarness)
  (commandEncoder : list GPUCommand) : list GPUCommand :=
  if gpuInactive h then commandEncoder
  else commandEncoder ++ [WriteTimestamp 1; ResolveQuerySet; CopyBufferToBuffer].

(** [start] and [end_] are the two timestamps read from the mapped result
    buffer, as numbers.  The result is the harness and the returned value.
    The method is taken as one step: the frame loop awaits its promise before
    it calls [endFrame], so nothing runs between the guard and the push. *)
Definition resolveGPUTimestamp (start end_ : number) (h : BenchmarkHarness)
  : BenchmarkHarness * number :=
  if gpuInactive h then (h, -1)
  else
    let durationMs := (end_ - start) / 1e6 in
    let h :=
      if PrimFloat.leb 0 durationMs
      then set_results
             (set_gpuTimes (gpuTimes (results h) ++ [durationMs]) (results h)) h
      else h in
    (h, durationMs).

(** *** Statistics and completion *)

Definition calculateStatistics (h : BenchmarkHarness) : BenchmarkHarness :=
  let r := results h in
  let r :=
    if (0 <? length (frames r))%nat then
      let r := set_meanFrameTime (Stats.mean (frames r)) r in
      let r := set_stdFrameTime (Stats.stdDev (frames r)) r in
      let r := set_p95FrameTime (Stats.p95 (frames r)) r in
      set_fps (1000 / meanFrameTime r) r
    else r in
  let r :=
    if (0 <? length (cpuTimes r))%nat
    then set_meanCpuTime (Stats.mean (cpuTimes r)) r else r in
  let r :=
    if (0 <? length (gpuTimes r))%nat
    then set_meanGpuTime (Stats.mean (gpuTimes r)) r else r in
  set_results r h.

Definition finalizeResults (now : number) (h : BenchmarkHarness)
  : BenchmarkHarness :=
  let h := set_results (set_totalTime (now - startTime h) (results h)) h in
  let h := calculateStatistics h in
  let w := set_statusColor "#4db8ff" (set_statusText "Complete" (window h)) in
  let w := set_BENCHMARK_RESULTS true w in
  let w := set_completeEvents (S (completeEvents w)) w in
  set_window w h.

Definition checkCompletion (now : number) (h : BenchmarkHarness)
  : BenchmarkHarness :=
  let complete :=
    if String.eqb (durationMode h) "time" then
      PrimFloat.ltb (targetDuration h * 1000) (now - startTime h)
    else if String.eqb (durationMode h) "frames" then
      (targetFrames h <=? Z.of_nat (activeFrameCount h))%Z
    else false in
  if complete then finalizeResults now (set_isComplete true h) else h.

(** *** Per frame API *)

(** [now] is the reading of [performance.now()], [mark] the time stamp of the
    ['frame-cpu-start'] mark. *)
Definition startFrame (now mark : number) (h : BenchmarkHarness)
  : BenchmarkHarness :=
  if isComplete h then h
  else if isWarmingUp h then
    if PrimFloat.ltb (warmupDuration h) (now - startTime h) then
      let h := set_isWarmingUp false h in
      let h := set_startTime now h in
      let h := set_lastFrameTime now h in
      let h :=
        set_window
          (set_statusColor "#69db7c" (set_statusText "Recording" (window h)))
          h in
      let h := set_activeFrameCount 0%nat h in
      set_cpuStartMark (Some mark) h
    else set_warmupFrameCount (S (warmupFrameCount h)) h
  else set_cpuStartMark (Some mark) h.

(** [mark] is the time stamp of the ['frame-cpu-end'] mark, [now] the reading
    of [performance.now()].  [performance.measure] throws when there is no
    start mark; the [catch] leaves [cpuTime] at 0. *)
Definition endFrame (mark now : number) (h : BenchmarkHarness)
  : BenchmarkHarness :=
  if isComplete h || isWarmingUp h then set_lastFrameTime now h
  else
    let cpuTime :=
      match cpuStartMark h with
      | Some start => mark - start
      | None => 0
      end in
    let h := set_cpuStartMark None h in
    let duration := now - lastFrameTime h in
    let h :=
      set_results (set_frames (frames (results h) ++ [duration]) (results h)) h in
    let h :=
      set_results
        (set_cpuTimes (cpuTimes (results h) ++ [cpuTime]) (results h)) h in
    let h := set_lastFrameTime now h in
    let h := set_activeFrameCount (S (activeFrameCount h)) h in
    let h := set_uiAccumulator (uiAccumulator h + duration) h in
    let h := set_uiFrameCount (S (uiFrameCount h)) h in
    let h :=
      if (10 <=? uiFrameCount h)%nat then
        let avgFrameTime := uiAccumulator h / of_nat (uiFrameCount h) in
        let currentFps := 1000 / avgFrameTime in
        let w := set_fpsText (Some currentFps) (window h) in
        let w := set_frameTimeText (Some avgFrameTime) w in
        let h := set_window w h in
        let h := set_uiAccumulator 0 h in
        set_uiFrameCount 0%nat h
      else h in
    checkCompletion now h.

Definition reportError (message : string) (h : BenchmarkHarness)
  : BenchmarkHarness :=
  let w := window h in
  let w := set_consoleErrors (consoleErrors w ++ [message]) w in
  let w := set_errorOverlay (Some message) w in
  let w := set_BENCHMARK_ERROR (Some message) w in
  set_window w h.

(** *** Sequences of calls *)

Inductive Call :=
| StartInitTimer (now : number)
| EndInitTimer (now1 now2 : number)
| InitWebGPUTimestamps (hasTimestampQuery : bool)
| BeginGPUTimestamp
| EndGPUTimestamp
| ResolveGPUTimestamp (start end_ : number)
| StartFrame (now mark : number)
| EndFrame (mark now : number)
| ReportError (message : string).

Definition call (h : BenchmarkHarness) (c : Call) : BenchmarkHarness :=
  match c with
  | StartInitTimer now => startInitTimer now h
  | EndInitTimer now1 now2 => endInitTimer now1 now2 h
  | InitWebGPUTimestamps b => initWebGPUTimestamps b h
  | BeginGPUTimestamp => h
  | EndGPUTimestamp => h
  | ResolveGPUTimestamp s e => fst (resolveGPUTimestamp s e h)
  | StartFrame now mark => startFrame now mark h
  | EndFrame mark now => endFrame mark now h
  | ReportError m => reportError m h
  end.

Definition calls (h : BenchmarkHarness) (cs : list Call) : BenchmarkHarness :=
  fold_left call cs h.

(** The stop condition as [checkCompletion] evaluates it. *)
Definition stop_condition (now : number) (h : BenchmarkHarness) : Prop :=
  (durationMode h = "time"%string
   /\ PrimFloat.ltb (targetDuration h * 1000) (now - startTime h) = true)
  \/ (durationMode h = "frames"%string
      /\ (targetFrames h <= Z.of_nat (activeFrameCount h))%Z).

(** [n] iterations of the loop at a steady frame period, the first at time
    [period]. *)
Definition steady_frames (period : number) (n : nat) : list Call :=
  flat_map
    (fun k =>
       [StartFrame (of_nat k * period) (of_nat k * period);
        EndFrame (of_nat k * period) (of_nat k * period)])
    (seq 1 n).

(** A new harness whose warm-up began at time 0. *)
Definition warming_example : BenchmarkHarness :=
  endInitTimer 0 0 (new fresh).

(** The same harness after a [startFrame] at 1001 ms has ended warm-up. *)
Definition recording_example : BenchmarkHarness :=
  startFrame 1001 1001 warming_example.

(** ... and after an [endFrame] at 4002 ms has completed the run. *)
Definition complete_example : BenchmarkHarness :=
  endFrame 4002 4002 recording_example.

(** The three sample sequences of the results. *)
Definition samples (h : BenchmarkHarness)
  : list number * list number * list number :=
  (frames (results h), cpuTimes (results h), gpuTimes (results h)).

(** The phase the flags encode. *)
Inductive Phase := Uninitialized | Warmup | Recording | Complete.

Definition phase (h : BenchmarkHarness) : Phase :=
  if isComplete h then Complete
  else if isWarmingUp h then
    (if initialized h then Warmup else Uninitialized)
  else Recording.

End Harness.

(** ** The earlier harness, which counts frames and has no warm-up *)

Module FrameHarness.
Import JS Browser.
Local Open Scope float_scope.

Record Results := mkResults {
  frames : list number;
  totalTime : number;
  fps : number;
  initTime : number;
  gpuTimes : list number
}.

Definition set_frames (v : list number) (r : Results) : Results :=
  mkResults v (totalTime r) (fps r) (initTime r) (gpuTimes r).
Definition set_totalTime (v : number) (r : Results) : Results :=
  mkResults (frames r) v (fps r) (initTime r) (gpuTimes r).
Definition set_fps (v : number) (r : Results) : Results :=
  mkResults (frames r) (totalTime r) v (initTime r) (gpuTimes r).
Definition set_initTime (v : number) (r : Results) : Results :=
  mkResults (frames r) (totalTime r) (fps r) v (gpuTimes r).
Definition set_gpuTimes (v : list number) (r : Results) : Results :=
  mkResults (frames r) (totalTime r) (fps r) (initTime r) v.

Record BenchmarkHarness := mkHarness {
  results : Results;
  initialized : bool;
  startTime : number;
  lastFrameTime : number;
  frameCount : nat;
  durationMode : string;
  targetDuration : number;
  targetFrames : Z;
  isComplete : bool;
  uiAccumulator : number;
  uiFrameCount : nat;
  initStartTime : number;  (* undefined (NaN in arithmetic) until startInitTimer *)
  window : Window
}.

Definition set_results (v : Results) (h : BenchmarkHarness)
  : BenchmarkHarness :=
  mkHarness v (initialized h) (startTime h) (lastFrameTime h) (frameCount h)
    (durationMode h) (targetDuration h) (targetFrames h) (isComplete h)
    (uiAccumulator h) (uiFrameCount h) (initStartTime h) (window h).
Definition set_initialized (v : bool) (h : BenchmarkHarness)
  : BenchmarkHarness :=
  mkHarness (results h) v (startTime h) (lastFrameTime h) (frameCount h)
    (durationMode h) (targetDuration h) (targetFrames h) (isComplete h)
    (uiAccumulator h) (uiFrameCount h) (initStartTime h) (window h).
Definition set_startTime (v : number) (h : BenchmarkHarness)
  : BenchmarkHarness :=
  mkHarness (results h) (initialized h) v (lastFrameTime h) (frameCount h)
    (durationMode h) (targetDuration h) (targetFrames h) (isComplete h)
    (uiAccumulator h) (uiFrameCount h) (initStartTime h) (window h).
Definition set_lastFrameTime (v : number) (h : BenchmarkHarness)
  : BenchmarkHarness :=
  mkHarness (results h) (initialized h) (startTime h) v (frameCount h)
    (durationMode h) (targetDuration h) (targetFrames h) (isComplete h)
    (uiAccumulator h) (uiFrameCount h) (initStartTime h) (window h).
Definition set_frameCount (v : nat) (h : BenchmarkHarness)
  : BenchmarkHarness :=
  mkHarness (results h) (initialized h) (startTime h) (lastFrameTime h) v
    (durationMode h) (targetDuration h) (targetFrames h) (isComplete h)
    (uiAccumulator h) (uiFrameCount h) (initStartTime h) (window h).
Definition set_durationMode (v : string) (h : BenchmarkHarness)
  : BenchmarkHarness :=
  mkHarness (results h) (initialized h) (startTime h) (lastFrameTime h)
    (frameCount h) v (targetDuration h) (targetFrames h) (isComplete h)
    (uiAccumulator h) (uiFrameCount h) (initStartTime h) (window h).
Definition set_targetDuration (v : number) (h : BenchmarkHarness)
  : BenchmarkHarness :=
  mkHarness (results h) (initialized h) (startTime h) (lastFrameTime h)
    (frameCount h) (durationMode h) v (targetFrames h) (isComplete h)
    (uiAccumulator h) (uiFrameCount h) (initStartTime h) (window h).
Definition set_targetFrames (v : Z) (h : BenchmarkHarness)
  : BenchmarkHarness :=
  mkHarness (results h) (initialized h) (startTime h) (lastFrameTime h)
    (frameCount h) (durationMode h) (targetDuration h) v (isComplete h)
    (uiAccumulator h) (uiFrameCount h) (initStartTime h) (window h).
Definition set_isComplete (v : bool) (h : BenchmarkHarness)
  : BenchmarkHarness :=
  mkHarness (results h) (initialized h) (startTime h) (lastFrameTime h)
    (frameCount h) (durationMode h) (targetDuration h) (targetFrames h) v
    (uiAccumulator h) (uiFrameCount h) (initStartTime h) (window h).
Definition set_uiAccumulator (v : number) (h : BenchmarkHarness)
  : BenchmarkHarness :=
  mkHarness (results h) (initialized h) (startTime h) (lastFrameTime h)
    (frameCount h) (durationMode h) (targetDuration h) (targetFrames h)
    (isComplete h) v (uiFrameCount h) (initStartTime h) (window h).
Definition set_uiFrameCount (v : nat) (h : BenchmarkHarness)
  : BenchmarkHarness :=
  mkHarness (results h) (initialized h) (startTime h) (lastFrameTime h)
    (frameCount h) (durationMode h) (targetDuration h) (targetFrames h)
    (isComplete h) (uiAccumulator h) v (initStartTime h) (window h).
Definition set_initStartTime (v : number) (h : BenchmarkHarness)
  : BenchmarkHarness :=
  mkHarness (results h) (initialized h) (startTime h) (lastFrameTime h)
    (frameCount h) (durationMode h) (targetDuration h) (targetFrames h)
    (isComplete h) (uiAccumulator h) (uiFrameCount h) v (window h).
Definition set_window (v : Window) (h : BenchmarkHarness) : BenchmarkHarness :=
  mkHarness (results h) (initialized h) (startTime h) (lastFrameTime h)
    (frameCount h) (durationMode h) (targetDuration h) (targetFrames h)
    (isComplete h) (uiAccumulator h) (uiFrameCount h) (initStartTime h) v.

(** [new BenchmarkHarness()] in the page [w]. *)
Definition new (w : Window) : BenchmarkHarness :=
  mkHarness (mkResults [] 0 0 0 [])
    false 0 0 0%nat
    "frames" 5 500
    false
    0 0%nat
    PrimFloat.nan w.

Definition startInitTimer (now : number) (h : BenchmarkHarness)
  : BenchmarkHarness :=
  set_initStartTime now h.

Definition endInitTimer (now : number) (h : BenchmarkHarness)
  : BenchmarkHarness :=
  let h := set_results (set_initTime (now - initStartTime h) (results h)) h in
  let h := set_initialized true h in
  set_window
    (set_statusColor "#69db7c" (set_statusText "Running" (window h))) h.

Definition startFrame (now : number) (h : BenchmarkHarness)
  : BenchmarkHarness :=
  if isComplete h then h
  else if (frameCount h =? 0)%nat then
    let h := set_startTime now h in
    set_lastFrameTime (startTime h) h
  else h.

Definition finalizeResults (now : number) (h : BenchmarkHarness)
  : BenchmarkHarness :=
  let h := set_results (set_totalTime (now - startTime h) (results h)) h in
  let h :=
    set_results
      (set_fps
         (of_nat (length (frames (results h))) / totalTime (results h) * 1000)
         (results h)) h in
  let w := set_statusColor "#4db8ff" (set_statusText "Complete" (window h)) in
  let w := set_BENCHMARK_RESULTS true w in
  let w := set_completeEvents (S (completeEvents w)) w in
  set_window w h.

Definition checkCompletion (now : number) (h : BenchmarkHarness)
  : BenchmarkHarness :=
  let complete :=
    if String.eqb (durationMode h) "time" then
      PrimFloat.ltb (targetDuration h * 1000) (now - startTime h)
    else if String.eqb (durationMode h) "frames" then
      (targetFrames h <=? Z.of_nat (frameCount h))%Z
    else false in
  if complete then finalizeResults now (set_isComplete true h) else h.

(** [gpuTimeMs] is the argument after its default [-1] has been applied. *)
Definition endFrame (gpuTimeMs now : number) (h : BenchmarkHarness)
  : BenchmarkHarness :=
  if isComplete h then h
  else
    let duration := now - lastFrameTime h in
    let h :=
      if (0 <? frameCount h)%nat then
        let h :=
          set_results
            (set_frames (frames (results h) ++ [duration]) (results h)) h in
        if PrimFloat.leb 0 gpuTimeMs
        then set_results
               (set_gpuTimes (gpuTimes (results h) ++ [gpuTimeMs]) (results h))
               h
        else h
      else h in
    let h := set_lastFrameTime now h in
    let h := set_frameCount (S (frameCount h)) h in
    let h := set_uiAccumulator (uiAccumulator h + duration) h in
    let h := set_uiFrameCount (S (uiFrameCount h)) h in
    let h :=
      if (10 <=? uiFrameCount h)%nat then
        let avgFrameTime := uiAccumulator h / of_nat (uiFrameCount h) in
        let currentFps := 1000 / avgFrameTime in
        let w := set_fpsText (Some currentFps) (window h) in
        let w := set_frameTimeText (Some avgFrameTime) w in
        let h := set_window w h in
        let h := set_uiAccumulator 0 h in
        set_uiFrameCount 0%nat h
      else h in
    checkCompletion now h.

Definition reportError (message : string) (h : BenchmarkHarness)
  : BenchmarkHarness :=
  let w := window h in
  let w := set_consoleErrors (consoleErrors w ++ [message]) w in
  let w := set_errorOverlay (Some message) w in
  let w := set_BENCHMARK_ERROR (Some message) w in
  set_window w h.

Inductive Call :=
| StartInitTimer (now : number)
| EndInitTimer (now : number)
| StartFrame (now : number)
| EndFrame (gpuTimeMs now : number)
| ReportError (message : string).

Definition call (h : BenchmarkHarness) (c : Call) : BenchmarkHarness :=
  match c with
  | StartInitTimer now => startInitTimer now h
  | EndInitTimer now => endInitTimer now h
  | StartFrame now => startFrame now h
  | EndFrame g now => endFrame g now h
  | ReportError m => reportError m h
  end.

Definition calls (h : BenchmarkHarness) (cs : list Call) : BenchmarkHarness :=
  fold_left call cs h.

(** The stop condition as [checkCompletion] evaluates it. *)
Definition stop_condition (now : number) (h : BenchmarkHarness) : Prop :=
  (durationMode h = "time"%string
   /\ PrimFloat.ltb (targetDuration h * 1000) (now - startTime h) = true)
  \/ (durationMode h = "frames"%string
      /\ (targetFrames h <= Z.of_nat (frameCount h))%Z).

(** A new harness with a target of [n] frames. *)
Definition with_target (n : Z) : BenchmarkHarness :=
  set_targetFrames n (new fresh).

(** Three iterations of the loop, 16 ms apart. *)
Definition three_frames : list Call :=
  [StartFrame 0; EndFrame (-1) 16; StartFrame 17; EndFrame (-1) 32;
   StartFrame 33; EndFrame (-1) 48].

(** The two sample sequences of the results. *)
Definition samples (h : BenchmarkHarness) : list number * list number :=
  (frames (results h), gpuTimes (results h)).

(** What holds of a harness in ['frames'] mode with target [T] after [n]
    calls of [endFrame]: until completion every frame but the first has left
    a duration; at completion the count has reached the target. *)
Definition counted (T : Z) (n : nat) (h : BenchmarkHarness) : Prop :=
  durationMode h = "frames"%string
  /\ targetFrames h = T
  /\ (isComplete h = false ->
      frameCount h = n /\ (Z.of_nat n < T)%Z
      /\ length (frames (results h)) = pred n)
  /\ (isComplete h = true ->
      (T <= Z.of_nat n)%Z
      /\ Z.of_nat (length (frames (results h))) = (T - 1)%Z).

(** The number of [EndFrame] calls in a sequence. *)
Definition endFrames (cs : list Call) : nat :=
  length (filter (fun c => match c with EndFrame _ _ => true | _ => false end) cs).

End FrameHarness.

(** ** The frame loop of a scenario *)

Module Scenario.
Import JS.
Local Open Scope float_scope.

(** What the loop asks of a harness. *)
Class HarnessAPI (H : Type) := {
  h_endInitTimer : number -> number -> H -> H;
  h_startFrame : number -> number -> H -> H;
  h_endFrame : number -> number -> number -> H -> H;
  h_reportError : string -> H -> H
}.

#[export] Instance warmup_harness : HarnessAPI Harness.BenchmarkHarness := {
  h_endInitTimer := Harness.endInitTimer;
  h_startFrame := Harness.startFrame;
  h_endFrame := fun _ mark now => Harness.endFrame mark now;
  h_reportError := Harness.reportError
}.

#[export] Instance frame_harness : HarnessAPI FrameHarness.BenchmarkHarness := {
  h_endInitTimer := fun now _ => FrameHarness.endInitTimer now;
  h_startFrame := fun now _ => FrameHarness.startFrame now;
  h_endFrame := fun gpuTimeMs _ now => FrameHarness.endFrame gpuTimeMs now;
  h_reportError := FrameHarness.reportError
}.

(** How the promise returned by [render()] settles. *)
Inductive RenderOutcome :=
| Fulfilled (gpuTimeMs : option number)
| Rejected (message : string)
| NotAPromise.

(** One iteration as the environment supplies it: the clock readings, what
    [render()] does to the harness and how it settles, and the id that
    [requestAnimationFrame] hands out. *)
Record Frame (H : Type) := mkFrame {
  startNow : number;
  startMark : number;
  render : H -> H * RenderOutcome;
  endMark : number;
  endNow : number;
  rafId : nat
}.
Arguments startNow {H}.
Arguments startMark {H}.
Arguments render {H}.
Arguments endMark {H}.
Arguments endNow {H}.
Arguments rafId {H}.

Record Scenario (H : Type) := mkScenario {
  harness : H;
  isRunning : bool;
  animationFrameId : option nat;
  pendingFrame : option nat  (* the requested animation frame not yet run *)
}.
Arguments mkScenario {H}.
Arguments harness {H}.
Arguments isRunning {H}.
Arguments animationFrameId {H}.
Arguments pendingFrame {H}.

Section Loop.
Context {H : Type} `{HarnessAPI H}.

Definition stop (sc : Scenario H) : Scenario H :=
  let pending :=
    match animationFrameId sc with
    | Some id =>
        if (id =? 0)%nat then pendingFrame sc
        else match pendingFrame sc with
             | Some p => if (p =? id)%nat then None else Some p
             | None => None
             end
    | None => pendingFrame sc
    end in
  mkScenario (harness sc) false (animationFrameId sc) pending.

Definition run (f : Frame H) (sc : Scenario H) : Scenario H :=
  if negb (isRunning sc) then sc
  else
    let h := h_startFrame (startNow f) (startMark f) (harness sc) in
    let (h, outcome) := render f h in
    match outcome with
    | Fulfilled gpuTimeMs =>
        let g := match gpuTimeMs with Some g => g | None => -1 end in
        let h := h_endFrame g (endMark f) (endNow f) h in
        mkScenario h (isRunning sc) (Some (rafId f)) (Some (rafId f))
    | Rejected message =>
        stop (mkScenario (h_reportError message h) (isRunning sc)
                (animationFrameId sc) (pendingFrame sc))
    | NotAPromise =>
        let h := h_endFrame (-1) (endMark f) (endNow f) h in
        mkScenario h (isRunning sc) (Some (rafId f)) (Some (rafId f))
    end.

Definition start (now1 now2 : number) (f : Frame H) (sc : Scenario H)
  : Scenario H :=
  let sc :=
    mkScenario (h_endInitTimer now1 now2 (harness sc)) true
      (animationFrameId sc) (pendingFrame sc) in
  run f sc.

(** The browser runs the requested animation frame, if one is pending. *)
Definition animationFrame (f : Frame H) (sc : Scenario H) : Scenario H :=
  match pendingFrame sc with
  | Some _ =>
      run f (mkScenario (harness sc) (isRunning sc) (animationFrameId sc) None)
  | None => sc
  end.

Definition animationFrames (sc : Scenario H) (fs : list (Frame H))
  : Scenario H :=
  fold_left (fun sc f => animationFrame f sc) fs sc.

End Loop.

(** A scenario that has been started on a new warm-up harness, ... *)
Definition started_example : Scenario Harness.BenchmarkHarness :=
  mkScenario (Harness.endInitTimer 0 0 (Harness.new Browser.fresh))
    true None None.

(** ... an iteration whose [render] rejects, ... *)
Definition rejected_frame : Frame Harness.BenchmarkHarness :=
  mkFrame _ 16 16 (fun h => (h, Rejected "lost")) 17 17 1%nat.

(** ... and a later iteration, well past warm-up, whose [render] is
    fulfilled. *)
Definition later_frame : Frame Harness.BenchmarkHarness :=
  mkFrame _ 2000 2000 (fun h => (h, Fulfilled None)) 2001 2001 2%nat.

End Scenario.

(** ** The sweep of automation/runner.js *)

Module Runner.
Import JS.
Local Open Scope float_scope.

Definition NUM_RUNS : nat := 10.

Definition apis : list string := ["webgl"; "webgpu"]%string.

Record Test := mkTest { scenario : string; counts : list Z }.

Definition testMatrix : list Test :=
  [ mkTest "A" [1]%Z;
    mkTest "B" [100; 500; 1000; 5000; 10000]%Z;
    mkTest "C" [10000; 50000; 100000; 200000]%Z;
    mkTest "D" [100; 256; 512; 1024]%Z;
    mkTest "E" [500; 2000; 5000; 10000]%Z ].

(** Objects of the report: ordered fields. *)
Inductive value :=
| Str (s : string)
| Num (x : number)
| Int (n : Z).

Definition object := list (string * value).

(** [o.k]; [None] is [undefined]. *)
Fixpoint get (k : string) (o : object) : option value :=
  match o with
  | [] => None
  | (k', v) :: o' => if String.eqb k k' then Some v else get k o'
  end.

(** What one trial's page hands back: the promise of [page.evaluate] is
    fulfilled with the harness's results or rejected with a reason (the 120 s
    timeout or the page's error); [page.goto], outside the [try], may throw. *)
Inductive TrialOutcome :=
| Fulfilled (result : Harness.Results)
| Rejected (reason : string)
| GotoThrew (reason : string).

Definition Page := string -> string -> Z -> nat -> TrialOutcome.

(** The object pushed onto [currentTestRuns]. *)
Record Run := mkRun {
  fps : number;
  meanFrameTime : number;
  stdFrameTime : number;
  p95FrameTime : number;
  meanCpuTime : number;
  meanGpuTime : number;
  initTime : number
}.

(** [undefined] in arithmetic is NaN. *)
Definition number_of (o : option number) : number :=
  match o with Some x => x | None => PrimFloat.nan end.

Definition run_of (result : Harness.Results) : Run :=
  mkRun (Harness.fps result) (Harness.meanFrameTime result)
    (Harness.stdFrameTime result) (number_of (Harness.p95FrameTime result))
    (Harness.meanCpuTime result) (or_zero (Harness.meanGpuTime result))
    (Harness.initTime result).

(** [for (const x of xs) body], where [body] may throw. *)
Fixpoint forEach {A S : Type} (xs : list A) (body : A -> S -> string + S)
  (s : S) : string + S :=
  match xs with
  | [] => inr s
  | x :: xs' =>
      match body x s with
      | inr s' => forEach xs' body s'
      | inl e => inl e
      end
  end.

(** One run of the inner loop: the [catch] absorbs a rejection. *)
Definition trial (page : Page) (api scenario : string) (count : Z)
  (run : nat) (currentTestRuns : list Run) : string + list Run :=
  match page api scenario count run with
  | GotoThrew e => inl e
  | Fulfilled result => inr (currentTestRuns ++ [run_of result])
  | Rejected _ => inr currentTestRuns
  end.

Definition aggregate (api scenario : string) (count : Z)
  (currentTestRuns : list Run) : object :=
  if (0 <? length currentTestRuns)%nat then
    [ ("api", Str api);
      ("scenario", Str scenario);
      ("count", Int count);
      ("runsSuccessful", Int (Z.of_nat (length currentTestRuns)));
      ("meanFps", Num (Stats.getMean (map fps currentTestRuns)));
      ("stdFps",
        Num (Stats.getStdDev (map fps currentTestRuns)
               (Stats.getMean (map fps currentTestRuns))));
      ("meanFrameTime", Num (Stats.getMean (map meanFrameTime currentTestRuns)));
      ("stdFrameTime",
        Num (Stats.getStdDev (map meanFrameTime currentTestRuns)
               (Stats.getMean (map meanFrameTime currentTestRuns))));
      ("meanP95FrameTime",
        Num (Stats.getMean (map p95FrameTime currentTestRuns)));
      ("meanCpuTime", Num (Stats.getMean (map meanCpuTime currentTestRuns)));
      ("meanGpuTime", Num (Stats.getMean (map meanGpuTime currentTestRuns)));
      ("meanInitTime", Num (Stats.getMean (map initTime currentTestRuns))) ]%string
  else
    [ ("api", Str api);
      ("scenario", Str scenario);
      ("count", Int count);
      ("error", Str "All runs failed") ]%string.

(** The body of the innermost [for (const count of test.counts)]. *)
Definition runPoint (page : Page) (api scenario : string) (count : Z)
  (data : list object) : string + list object :=
  match forEach (seq 1 NUM_RUNS) (trial page api scenario count) [] with
  | inr currentTestRuns =>
      inr (data ++ [aggregate api scenario count currentTestRuns])
  | inl e => inl e
  end.

(** The three nested loops; the result is [finalResults.data], or the
    exception that ends [runBenchmark]. *)
Definition sweep (page : Page) : string + list object :=
  forEach apis
    (fun api =>
       forEach testMatrix
         (fun test =>
            forEach (counts test)
              (fun count => runPoint page api (scenario test) count)))
    [].

(** *** The CSV projection *)

Definition string_of_value (toFixed2 : number -> string) (v : option value)
  : string :=
  match v with
  | Some (Str s) => s
  | Some (Int n) => NilZero.string_of_int (Z.to_int n)
  | Some (Num x) => toFixed2 x
  | None => "undefined"
  end.

(** [if (r.error)]: a non-empty string is truthy, [undefined] is not. *)
Definition truthy (v : option value) : bool :=
  match v with
  | Some (Str s) => negb (String.eqb s EmptyString)
  | Some (Int n) => negb (n =? 0)%Z
  | Some (Num x) => negb (PrimFloat.eqb x 0 || PrimFloat.is_nan x)
  | None => false
  end.

Definition newline : string := String (ascii_of_nat 10) EmptyString.

Definition csvHeader : string :=
  "API,Scenario,Count,MeanFPS,StdFPS,MeanFrameTime_ms,StdFrameTime_ms,P95FrameTime_ms,MeanCpuTime_ms,MeanGpuTime_ms,MeanInitTime_ms,Error"
  ++ newline.

(** [toFixed2] is [Number.prototype.toFixed] at 2 digits. *)
Definition csvRow (toFixed2 : number -> string) (r : object) : string :=
  let str k := string_of_value toFixed2 (get k r) in
  (if truthy (get "error" r) then
     str "api" ++ "," ++ str "scenario" ++ "," ++ str "count"
     ++ ",,,,,,,,," ++ str "error" ++ newline
   else
     str "api" ++ "," ++ str "scenario" ++ "," ++ str "count" ++ ","
     ++ str "meanFps" ++ "," ++ str "stdFps" ++ ","
     ++ str "meanFrameTime" ++ "," ++ str "stdFrameTime" ++ ","
     ++ str "meanP95FrameTime" ++ "," ++ str "meanCpuTime" ++ ","
     ++ str "meanGpuTime" ++ "," ++ str "meanInitTime" ++ "," ++ newline)%string.

Definition csv (toFixed2 : number -> string) (data : list object) : string :=
  fold_left (fun csv r => (csv ++ csvRow toFixed2 r)%string) data csvHeader.

(** The configuration points in sweep order. *)
Definition points : list (string * string * Z) :=
  flat_map
    (fun api =>
       flat_map
         (fun test => map (fun count => (api, scenario test, count)) (counts test))
         testMatrix)
    apis.

(** The runs of one point that were fulfilled, in order. *)
Definition successes (page : Page) (api scenario : string) (count : Z)
  : list Run :=
  flat_map
    (fun run =>
       match page api scenario count run with
       | Fulfilled result => [run_of result]
       | _ => []
       end)
    (seq 1 NUM_RUNS).

(** The report entry of one configuration point. *)
Definition entry (page : Page) (point : string * string * Z) : object :=
  let '(api, scenario, count) := point in
  aggregate api scenario count (successes page api scenario count).

(** The ten per-trial runs of the aggregation example. *)
Definition ten_runs : list Run :=
  map (fun fps => mkRun fps 0 0 0 0 0 0)
    [58; 59; 60; 61; 60; 59; 58; 62; 60; 61].

(** A page on which every trial times out. *)
Definition always_timeout : Page :=
  fun _ _ _ _ => Rejected "Timeout (120s)".

End Runner.

(** * Facts about the statistics *)

Section StatsFacts.
Import JS Stats.
Local Open Scope float_scope.

Lemma insert_perm (x : number) (l : list number) :
  Permutation (insert x l) (x :: l).
Proof.
  induction l as [|y l IH]; simpl.
  - apply Permutation_refl.
  - destruct (PrimFloat.ltb 0 (x - y)).
    + apply perm_trans with (y :: x :: l).
      * now apply perm_skip.
      * apply perm_swap.
    + apply Permutation_refl.
Qed.

Lemma sort_perm (arr : list number) : Permutation (sort arr) arr.
Proof.
  induction arr as [|x arr IH]; simpl.
  - constructor.
  - apply perm_trans with (x :: sort arr).
    + apply insert_perm.
    + now apply perm_skip.
Qed.

Lemma sort_length (arr : list number) : length (sort arr) = length arr.
Proof. apply Permutation_length, sort_perm. Qed.

Lemma insert_hdrel (a x : number) (l : list number) :
  ascending a x -> HdRel ascending a l -> HdRel ascending a (insert x l).
Proof.
  intros Hax Hal. destruct l as [|y l]; simpl.
  - now constructor.
  - destruct (PrimFloat.ltb 0 (x - y)).
    + inversion Hal; subst. now constructor.
    + now constructor.
Qed.

Lemma insert_sorted (x : number) (l : list number) :
  Sorted ascending l -> Sorted ascending (insert x l).
Proof.
  induction l as [|y l IH]; simpl; intros Hs.
  - repeat constructor.
  - destruct (PrimFloat.ltb 0 (x - y)) eqn:Hxy.
    + inversion Hs; subst. constructor.
      * now apply IH.
      * apply insert_hdrel; [now left | assumption].
    + constructor; [assumption|]. constructor. now right.
Qed.

Lemma sort_sorted (arr : list number) : Sorted ascending (sort arr).
Proof.
  induction arr as [|x arr IH]; simpl.
  - constructor.
  - now apply insert_sorted.
Qed.

Example sort_six : sort [3; 1; 2.5; 5; 4; 1] = [1; 1; 2.5; 3; 4; 5].
Proof. reflexivity. Qed.

(** The squares may be summed in the fold or mapped first: the additions
    are the same, in the same order. *)
Lemma fold_left_add_map (f : number -> number) (xs : list number) (a : number) :
  fold_left (fun acc val => acc + f val) xs a
  = fold_left (fun a b => a + b) (map f xs) a.
Proof.
  revert a. induction xs as [|x xs IH]; intros a; simpl.
  - reflexivity.
  - apply IH.
Qed.

Lemma stdDev_is_stddev_spec (xs : list number) : stdDev xs = stddev_spec xs.
Proof.
  unfold stdDev, stddev_spec, variance, mean at 2, sum.
  now rewrite fold_left_add_map, length_map.
Qed.

Lemma SFmul_comm (p e : Z) (x y : spec_float) : SFmul p e x y = SFmul p e y x.
Proof.
  destruct x as [sx|sx| |sx mx ex], y as [sy|sy| |sy my ey]; simpl;
    rewrite ?(xorb_comm sx sy), ?(Pos.mul_comm mx my), ?(Z.add_comm ex ey);
    reflexivity.
Qed.

Lemma float_mul_comm (x y : number) : x * y = y * x.
Proof.
  apply Prim2SF_inj. rewrite !mul_spec. apply SFmul_comm.
Qed.

Lemma idx95_agrees_sound (fuel : nat) :
  forall len n : Z,
    idx95_agrees fuel len = true ->
    (len <= n < len + Z.of_nat fuel)%Z ->
    Math_floor (of_Z n * 0.95) = Some (95 * n / 100)%Z.
Proof.
  induction fuel as [|fuel IH]; intros len n Hc Hn.
  - lia.
  - simpl in Hc. apply andb_true_iff in Hc. destruct Hc as [Hhere Hrest].
    destruct (Z.eq_dec n len) as [->|Hne].
    + destruct (Math_floor (of_Z len * 0.95)) as [i|]; [|discriminate].
      apply Z.eqb_eq in Hhere. now subst.
    + apply (IH (Z.succ len)); [assumption | lia].
Qed.

Lemma idx95_checked : idx95_agrees checked_lengths 0 = true.
Proof. vm_compute. reflexivity. Qed.

Lemma idx95_nearest_rank (len : nat) :
  (Z.of_nat len < 200000)%Z -> idx95 len = Some (nearest_rank len).
Proof.
  intros Hlen. unfold idx95, nearest_rank, of_nat.
  apply (idx95_agrees_sound checked_lengths 0).
  - apply idx95_checked.
  - unfold checked_lengths. rewrite Z2Nat.id; lia.
Qed.

Lemma nearest_rank_in_range (len : nat) :
  (0 < len)%nat -> (0 <= nearest_rank len < Z.of_nat len)%Z.
Proof.
  intros Hpos. unfold nearest_rank. split.
  - apply Z.div_pos; lia.
  - apply Z.div_lt_upper_bound; lia.
Qed.

Lemma p95_is_p95_spec (arr : list number) :
  arr <> [] -> (Z.of_nat (length arr) < 200000)%Z -> p95 arr = p95_spec arr.
Proof.
  intros Hne Hlen. unfold p95, p95_spec, index.
  rewrite sort_length, idx95_nearest_rank by assumption.
  destruct (nearest_rank_in_range (length arr)) as [H0 _].
  { destruct arr; [congruence | simpl; lia]. }
  destruct (Z.ltb_spec (nearest_rank (length arr)) 0); [lia | reflexivity].
Qed.

Lemma p95_spec_defined (arr : list number) :
  arr <> [] -> exists v, p95_spec arr = Some v /\ In v arr.
Proof.
  intros Hne. unfold p95_spec.
  destruct (nearest_rank_in_range (length arr)) as [H0 H1].
  { destruct arr; [congruence | simpl; lia]. }
  destruct (nth_error (sort arr) (Z.to_nat (nearest_rank (length arr)))) as [v|] eqn:Hv.
  - exists v. split; [reflexivity|].
    apply (Permutation_in _ (sort_perm arr)). eapply nth_error_In, Hv.
  - apply nth_error_None in Hv. rewrite sort_length in Hv. lia.
Qed.

(** Claim C4. For every non-empty sample sequence, [p95] is the element at index
    [floor(0.95 * len)] of the sequence sorted ascending: the sorted array is a
    permutation of the samples in which the comparator finds every neighbour
    in order, the index is computed as [Math.floor] of the binary64 product,
    and for every length below 200000 that index is the exact
    [floor(95 * len / 100)], lies within the array and selects one of the
    samples.  In particular [p95([1..20]) = 20], at index 19.  [getP95] of the
    runner is the same function. *)
Theorem p95_nearest_rank (xs : list number) :
  xs <> [] ->
  p95 xs = index (sort xs) (Math_floor (0.95 * of_nat (length xs)))
  /\ Permutation (sort xs) xs
  /\ Sorted ascending (sort xs)
  /\ ((Z.of_nat (length xs) < 200000)%Z ->
      p95 xs = p95_spec xs /\ exists v, p95 xs = Some v /\ In v xs)
  /\ getP95 xs = p95 xs
  /\ idx95 20 = Some 19%Z
  /\ p95 (map of_nat (seq 1 20)) = Some 20.
Proof.
  intros Hne. repeat split.
  - unfold p95, idx95. now rewrite sort_length, float_mul_comm.
  - apply sort_perm.
  - apply sort_sorted.
  - now apply p95_is_p95_spec.
  - rewrite p95_is_p95_spec by assumption. now apply p95_spec_defined.
Qed.

Lemma p95_nearest_rank_witness :
  [3; 1; 2] <> []
  /\ p95 [3; 1; 2] = Some 3
  /\ p95 [3; 1; 2] = p95_spec [3; 1; 2].
Proof.
  assert (Hne : [3; 1; 2] <> []) by discriminate.
  destruct (p95_nearest_rank [3; 1; 2] Hne) as (_ & _ & _ & Hspec & _).
  split; [exact Hne|]. split; [reflexivity|].
  apply Hspec. simpl. lia.
Defined.

(** Claim C5. [mean] is the sum divided by the length, and [stdDev] is the square
    root of the mean of the squared deviations from the mean: the population
    deviation (on [1, 3] it is 1, where the sample-corrected one is not).
    [mean([1,2,3,4]) = 2.5], [stdDev([5,5,5,5]) = 0], and the aggregate of ten
    runs with fps 58, 59, 60, 61, 60, 59, 58, 62, 60, 61 has [meanFps = 59.8]
    and [stdFps] the population deviation of that list, between 1.2489 and
    1.2491. *)
Theorem mean_and_population_stddev (api scenario : string) (count : Z) :
  (forall xs : list number,
      mean xs = sum xs / of_nat (length xs)
      /\ stdDev xs = stddev_spec xs
      /\ getMean xs = mean xs
      /\ getStdDev xs (getMean xs) = stdDev xs)
  /\ mean [1; 2; 3; 4] = 2.5
  /\ stdDev [5; 5; 5; 5] = 0
  /\ stdDev [1; 3] = 1
  /\ PrimFloat.ltb 1 (stddev_sample [1; 3]) = true
  /\ Runner.get "meanFps" (Runner.aggregate api scenario count Runner.ten_runs)
     = Some (Runner.Num 59.8)
  /\ Runner.get "stdFps" (Runner.aggregate api scenario count Runner.ten_runs)
     = Some (Runner.Num (stdDev [58; 59; 60; 61; 60; 59; 58; 62; 60; 61]))
  /\ PrimFloat.ltb 1.2489 (stdDev [58; 59; 60; 61; 60; 59; 58; 62; 60; 61])
     = true
  /\ PrimFloat.ltb (stdDev [58; 59; 60; 61; 60; 59; 58; 62; 60; 61]) 1.2491
     = true.
Proof.
  split.
  - intros xs. repeat split.
    + apply stdDev_is_stddev_spec.
  - repeat split.
Qed.

End StatsFacts.

(** * Facts about the harnesses *)

Section HarnessFacts.
Import JS Browser Harness.
Local Open Scope float_scope.

Lemma calculateStatistics_samples (h : BenchmarkHarness) :
  samples (calculateStatistics h) = samples h.
Proof.
  unfold calculateStatistics, samples.
  destruct h as [r]; destruct r as [fr cp gp]; cbn.
  destruct fr, cp, gp; reflexivity.
Qed.

Lemma finalizeResults_samples (now : number) (h : BenchmarkHarness) :
  samples (finalizeResults now h) = samples h.
Proof.
  unfold finalizeResults. cbv zeta.
  change (samples (set_window ?w ?h')) with (samples h').
  now rewrite calculateStatistics_samples.
Qed.

Lemma checkCompletion_samples (now : number) (h : BenchmarkHarness) :
  samples (checkCompletion now h) = samples h.
Proof.
  unfold checkCompletion. cbv zeta.
  match goal with |- context [if ?c then _ else _] => destruct c end.
  - now rewrite finalizeResults_samples.
  - reflexivity.
Qed.

Lemma checkCompletion_isWarmingUp (now : number) (h : BenchmarkHarness) :
  isWarmingUp (checkCompletion now h) = isWarmingUp h.
Proof.
  unfold checkCompletion. cbv zeta.
  match goal with |- context [if ?c then _ else _] => destruct c end;
    reflexivity.
Qed.

(** Decide every guard met on the way through a method. *)
Ltac decide_guards :=
  repeat match goal with
    | |- context [if ?c then _ else _] => destruct c eqn:?
    | H : context [if ?c then _ else _] |- _ => destruct c eqn:?
    end.

Lemma warmup_call_samples (h : BenchmarkHarness) (c : Call) :
  isWarmingUp h = true -> samples (call h c) = samples h.
Proof.
  intros Hw. destruct c; cbn [call];
    try reflexivity.
  - unfold initWebGPUTimestamps. now destruct hasTimestampQuery.
  - unfold resolveGPUTimestamp, gpuInactive. rewrite Hw.
    now rewrite orb_true_r.
  - unfold startFrame. rewrite Hw. decide_guards; reflexivity.
  - unfold endFrame. rewrite Hw, orb_true_r. reflexivity.
Qed.

Lemma call_isWarmingUp (h : BenchmarkHarness) (c : Call) :
  isWarmingUp (call h c) = true -> isWarmingUp h = true.
Proof.
  destruct c; cbn [call]; try (intro; assumption).
  - unfold initWebGPUTimestamps. now destruct hasTimestampQuery.
  - unfold resolveGPUTimestamp. decide_guards; intro; assumption.
  - unfold startFrame. decide_guards; cbn; intro; congruence.
  - unfold endFrame. destruct (isComplete h || isWarmingUp h) eqn:Hg.
    + intro; assumption.
    + rewrite checkCompletion_isWarmingUp. cbv zeta.
      decide_guards; cbn; intro; assumption.
Qed.

Lemma complete_call (h : BenchmarkHarness) (c : Call) :
  isComplete h = true ->
  isComplete (call h c) = true /\ samples (call h c) = samples h.
Proof.
  intros Hc. destruct c; cbn [call]; try (split; [assumption | reflexivity]).
  - unfold initWebGPUTimestamps. now destruct hasTimestampQuery.
  - unfold resolveGPUTimestamp, gpuInactive. rewrite Hc.
    rewrite orb_true_r. now split.
  - unfold startFrame. rewrite Hc. now split.
  - unfold endFrame. rewrite Hc. cbn. now split.
Qed.

Lemma calls_app (h : BenchmarkHarness) (cs1 cs2 : list Call) :
  calls h (cs1 ++ cs2) = calls (calls h cs1) cs2.
Proof. apply fold_left_app. Qed.

Lemma calls_isWarmingUp (cs : list Call) :
  forall h, isWarmingUp (calls h cs) = true -> isWarmingUp h = true.
Proof.
  induction cs as [|c cs IH]; intros h Hw; simpl in *.
  - assumption.
  - eapply call_isWarmingUp, IH, Hw.
Qed.

Lemma warmup_calls_samples (cs : list Call) :
  forall h, isWarmingUp (calls h cs) = true -> samples (calls h cs) = samples h.
Proof.
  induction cs as [|c cs IH]; intros h Hw; simpl in *.
  - reflexivity.
  - rewrite (IH _ Hw). apply warmup_call_samples.
    eapply call_isWarmingUp, calls_isWarmingUp, Hw.
Qed.

(** Claim C1. While the harness is warming up no call appends a sample: if it is
    still warming up after a sequence of calls, the three sample sequences
    are those it started with, each call of the sequence left them as it
    found them, and whatever call comes next leaves them unchanged too.  A
    harness that starts with empty sequences therefore holds no sample until
    warm-up has ended. *)
Theorem no_sample_during_warmup (h0 : BenchmarkHarness) (cs : list Call) :
  isWarmingUp (calls h0 cs) = true ->
  samples (calls h0 cs) = samples h0
  /\ (forall n c, nth_error cs n = Some c ->
        isWarmingUp (calls h0 (firstn n cs)) = true
        /\ samples (call (calls h0 (firstn n cs)) c)
           = samples (calls h0 (firstn n cs)))
  /\ (forall c, samples (call (calls h0 cs) c) = samples h0).
Proof.
  intros Hw. split; [|split].
  - now apply warmup_calls_samples.
  - intros n c Hn.
    assert (Hpre : isWarmingUp (calls h0 (firstn n cs)) = true).
    { apply (calls_isWarmingUp (skipn n cs)).
      now rewrite <- calls_app, firstn_skipn. }
    split; [assumption | now apply warmup_call_samples].
  - intros c. rewrite warmup_call_samples by assumption.
    now apply warmup_calls_samples.
Qed.

Lemma no_sample_during_warmup_witness :
  isWarmingUp
    (calls (new fresh)
       [EndInitTimer 0 0; StartFrame 16 16; EndFrame 17 17;
        ResolveGPUTimestamp 0 5; StartFrame 32 32]) = true
  /\ samples
       (calls (new fresh)
          [EndInitTimer 0 0; StartFrame 16 16; EndFrame 17 17;
           ResolveGPUTimestamp 0 5; StartFrame 32 32])
     = ([], [], []).
Proof.
  split; [reflexivity|].
  exact (proj1 (no_sample_during_warmup (new fresh)
                  [EndInitTimer 0 0; StartFrame 16 16; EndFrame 17 17;
                   ResolveGPUTimestamp 0 5; StartFrame 32 32] eq_refl)).
Defined.

(** With a warm-up of 1000 ms and a steady 16 ms frame period the first 62
    iterations contribute no sample; the 63rd, which ends warm-up, does. *)
Example warmup_62_frames :
  let h := endInitTimer 0 0 (new fresh) in
  isWarmingUp (calls h (steady_frames 16 62)) = true
  /\ samples (calls h (steady_frames 16 62)) = ([], [], [])
  /\ warmupFrameCount (calls h (steady_frames 16 62)) = 62%nat
  /\ isWarmingUp (calls h (steady_frames 16 63)) = false
  /\ length (frames (results (calls h (steady_frames 16 63)))) = 1%nat.
Proof. vm_compute. repeat split. Qed.

Lemma complete_calls (cs : list Call) :
  forall h, isComplete h = true ->
    isComplete (calls h cs) = true /\ samples (calls h cs) = samples h.
Proof.
  induction cs as [|c cs IH]; intros h Hc; simpl.
  - now split.
  - destruct (complete_call h c Hc) as [Hc' Hs'].
    destruct (IH _ Hc') as [Hc'' Hs'']. split; congruence.
Qed.

End HarnessFacts.

Section FrameHarnessFacts.
Import JS Browser FrameHarness.
Local Open Scope float_scope.

Lemma frame_complete_call (h : BenchmarkHarness) (c : Call) :
  isComplete h = true ->
  isComplete (call h c) = true /\ samples (call h c) = samples h.
Proof.
  intros Hc. destruct c; cbn [call]; try (split; [assumption | reflexivity]).
  - unfold startFrame. rewrite Hc. now split.
  - unfold endFrame. rewrite Hc. now split.
Qed.

Lemma frame_complete_calls (cs : list Call) :
  forall h, isComplete h = true ->
    isComplete (calls h cs) = true /\ samples (calls h cs) = samples h.
Proof.
  induction cs as [|c cs IH]; intros h Hc; simpl.
  - now split.
  - destruct (frame_complete_call h c Hc) as [Hc' Hs'].
    destruct (IH _ Hc') as [Hc'' Hs'']. split; congruence.
Qed.

End FrameHarnessFacts.

Section Absorbing.
Local Open Scope float_scope.

(** Claim C3. Complete is absorbing in both harnesses: from a complete harness,
    whatever calls follow ([endFrame] among them), the harness stays complete
    (so its phase is never Warmup or Recording again) and the sample
    sequences, hence the sample count, are unchanged. *)
Theorem complete_is_absorbing
  (h : Harness.BenchmarkHarness) (cs : list Harness.Call)
  (f : FrameHarness.BenchmarkHarness) (fcs : list FrameHarness.Call) :
  Harness.isComplete h = true ->
  FrameHarness.isComplete f = true ->
  (Harness.isComplete (Harness.calls h cs) = true
   /\ Harness.phase (Harness.calls h cs) = Harness.Complete
   /\ Harness.samples (Harness.calls h cs) = Harness.samples h
   /\ length (Harness.frames (Harness.results (Harness.calls h cs)))
      = length (Harness.frames (Harness.results h)))
  /\ (FrameHarness.isComplete (FrameHarness.calls f fcs) = true
      /\ FrameHarness.samples (FrameHarness.calls f fcs)
         = FrameHarness.samples f
      /\ length (FrameHarness.frames
                   (FrameHarness.results (FrameHarness.calls f fcs)))
         = length (FrameHarness.frames (FrameHarness.results f))).
Proof.
  intros Hh Hf.
  destruct (complete_calls cs h Hh) as [Hc Hs].
  destruct (frame_complete_calls fcs f Hf) as [Hfc Hfs].
  repeat split; try assumption.
  - unfold Harness.phase. now rewrite Hc.
  - unfold Harness.samples in Hs. congruence.
  - unfold FrameHarness.samples in Hfs. congruence.
Qed.

Lemma complete_is_absorbing_witness :
  Harness.isComplete Harness.complete_example = true
  /\ FrameHarness.isComplete
       (FrameHarness.calls (FrameHarness.with_target 3)
          FrameHarness.three_frames)
     = true
  /\ length
       (Harness.frames
          (Harness.results
             (Harness.calls Harness.complete_example
                [Harness.StartFrame 4010 4010; Harness.EndFrame 4020 4020])))
     = length (Harness.frames (Harness.results Harness.complete_example)).
Proof.
  split; [reflexivity|]. split; [reflexivity|].
  exact (proj2 (proj2 (proj2 (proj1
    (complete_is_absorbing
       Harness.complete_example
       [Harness.StartFrame 4010 4010; Harness.EndFrame 4020 4020]
       (FrameHarness.calls (FrameHarness.with_target 3)
          FrameHarness.three_frames)
       [FrameHarness.EndFrame 5 64]
       eq_refl eq_refl))))).
Defined.

End Absorbing.

Section Completion.
Import JS Browser Harness.
Local Open Scope float_scope.

Lemma checkCompletion_isComplete (now : number) (h : BenchmarkHarness) :
  isComplete h = false ->
  isComplete (checkCompletion now h) = true <-> stop_condition now h.
Proof.
  intros Hc. unfold checkCompletion, stop_condition. cbv zeta.
  destruct (String.eqb_spec (durationMode h) "time") as [Ht|Ht].
  - rewrite Ht.
    destruct (PrimFloat.ltb (targetDuration h * 1000) (now - startTime h)).
    + split; [intros _; left; now split | reflexivity].
    + rewrite Hc. split; [discriminate|].
      intros [[_ H]|[H _]]; discriminate.
  - destruct (String.eqb_spec (durationMode h) "frames") as [Hf|Hf].
    + destruct (Z.leb_spec (targetFrames h) (Z.of_nat (activeFrameCount h)))
        as [Hle|Hlt].
      * split; [intros _; right; now split | reflexivity].
      * rewrite Hc. split; [discriminate|].
        intros [[H _]|[_ H]]; [congruence | lia].
    + rewrite Hc. split; [discriminate|].
      intros [[H _]|[H _]]; congruence.
Qed.
Lemma checkCompletion_stop (now : number) (h : BenchmarkHarness) :
  isComplete h = false ->
  stop_condition now h ->
  checkCompletion now h = finalizeResults now (set_isComplete true h).
Proof.
  intros Hc Hs. apply (checkCompletion_isComplete now h Hc) in Hs.
  unfold checkCompletion in *. cbv zeta in *.
  match goal with |- context [if ?c then _ else _] => destruct c end.
  - reflexivity.
  - congruence.
Qed.

Lemma checkCompletion_continue (now : number) (h : BenchmarkHarness) :
  isComplete (checkCompletion now h) = false -> checkCompletion now h = h.
Proof.
  unfold checkCompletion. cbv zeta.
  match goal with |- context [if ?c then _ else _] => destruct c end.
  - discriminate.
  - reflexivity.
Qed.

(** What [finalizeResults] leaves in the results and in the page. *)
Lemma finalizeResults_results (now : number) (h : BenchmarkHarness) :
  frames (results h) <> [] ->
  cpuTimes (results h) <> [] ->
  let r := results (finalizeResults now h) in
  frames r = frames (results h)
  /\ cpuTimes r = cpuTimes (results h)
  /\ gpuTimes r = gpuTimes (results h)
  /\ totalTime r = now - startTime h
  /\ meanFrameTime r = Stats.mean (frames r)
  /\ stdFrameTime r = Stats.stdDev (frames r)
  /\ p95FrameTime r = Stats.p95 (frames r)
  /\ fps r = 1000 / Stats.mean (frames r)
  /\ meanCpuTime r = Stats.mean (cpuTimes r)
  /\ (gpuTimes r <> [] -> meanGpuTime r = Stats.mean (gpuTimes r))
  /\ (gpuTimes r = [] -> meanGpuTime r = meanGpuTime (results h)).
Proof.
  destruct h as [r]. destruct r as [fr cp gp]. cbn.
  intros Hfr Hcp.
  destruct fr as [|f fr]; [congruence|].
  destruct cp as [|c cp]; [congruence|].
  destruct gp as [|g gp]; cbn; repeat split; congruence.
Qed.

Lemma finalizeResults_page (now : number) (h : BenchmarkHarness) :
  isComplete (finalizeResults now h) = isComplete h
  /\ isWarmingUp (finalizeResults now h) = isWarmingUp h
  /\ BENCHMARK_RESULTS (window (finalizeResults now h)) = true
  /\ completeEvents (window (finalizeResults now h))
     = S (completeEvents (window h))
  /\ statusText (window (finalizeResults now h)) = "Complete"%string.
Proof. repeat split. Qed.

(** [endFrame] while recording: one sample is pushed onto [frames] and one
    onto [cpuTimes], then the stop condition is evaluated. *)
Lemma endFrame_recording (mark now : number) (h : BenchmarkHarness) :
  isComplete h = false ->
  isWarmingUp h = false ->
  exists hm,
    endFrame mark now h = checkCompletion now hm
    /\ frames (results hm) = frames (results h) ++ [now - lastFrameTime h]
    /\ cpuTimes (results hm)
       = cpuTimes (results h)
         ++ [match cpuStartMark h with Some s => mark - s | None => 0 end]
    /\ gpuTimes (results hm) = gpuTimes (results h)
    /\ activeFrameCount hm = S (activeFrameCount h)
    /\ isComplete hm = false
    /\ isWarmingUp hm = false
    /\ startTime hm = startTime h
    /\ durationMode hm = durationMode h
    /\ targetDuration hm = targetDuration h
    /\ targetFrames hm = targetFrames h
    /\ completeEvents (window hm) = completeEvents (window h)
    /\ BENCHMARK_RESULTS (window hm) = BENCHMARK_RESULTS (window h).
Proof.
  intros Hc Hw. unfold endFrame. rewrite Hc, Hw. cbn [orb]. cbv zeta.
  eexists. split; [reflexivity|].
  destruct (10 <=? uiFrameCount _)%nat; cbn; repeat split; assumption.
Qed.

Lemma call_completeEvents (h : BenchmarkHarness) (c : Call) :
  completeEvents (window (call h c))
  = (completeEvents (window h)
     + (if negb (isComplete h) && isComplete (call h c) then 1 else 0))%nat
  /\ (isComplete h = true -> isComplete (call h c) = true).
Proof.
  destruct (isComplete h) eqn:Hc.
  - cbn [negb andb]. rewrite Nat.add_0_r. split.
    + destruct c; cbn [call]; try reflexivity.
      * unfold initWebGPUTimestamps. now destruct hasTimestampQuery.
      * unfold resolveGPUTimestamp, gpuInactive.
        now rewrite Hc, orb_true_r.
      * unfold startFrame. now rewrite Hc.
      * unfold endFrame. now rewrite Hc.
    + intros _. destruct c; cbn [call]; try assumption.
      * unfold initWebGPUTimestamps. now destruct hasTimestampQuery.
      * unfold resolveGPUTimestamp, gpuInactive.
        now rewrite Hc, orb_true_r.
      * unfold startFrame. now rewrite Hc.
      * unfold endFrame. now rewrite Hc.
  - cbn [negb andb]. split; [|discriminate].
    assert (Hsame : forall h', isComplete h' = false ->
              completeEvents (window h') = completeEvents (window h) ->
              completeEvents (window h')
              = (completeEvents (window h)
                 + (if isComplete h' then 1 else 0))%nat).
    { intros h' -> ->. lia. }
    destruct c; cbn [call]; try (apply Hsame; [exact Hc | reflexivity]).
    + unfold initWebGPUTimestamps.
      destruct hasTimestampQuery; (apply Hsame; [exact Hc | reflexivity]).
    + unfold resolveGPUTimestamp.
      destruct (gpuInactive h); [|destruct (PrimFloat.leb _ _)];
        (apply Hsame; [exact Hc | reflexivity]).
    + unfold startFrame. rewrite Hc.
      destruct (isWarmingUp h); [destruct (PrimFloat.ltb _ _)|];
        (apply Hsame; [exact Hc | reflexivity]).
    + destruct (isWarmingUp h) eqn:Hw.
      * unfold endFrame. rewrite Hc, Hw. cbn [orb].
        apply Hsame; [exact Hc | reflexivity].
      * destruct (endFrame_recording mark now h Hc Hw)
          as (hm & -> & _ & _ & _ & _ & Hcm & _ & _ & _ & _ & _ & Hev & _).
        rewrite <- Hev.
        destruct (isComplete (checkCompletion now hm)) eqn:Hdone.
        -- apply (checkCompletion_isComplete now hm Hcm) in Hdone.
           rewrite (checkCompletion_stop now hm Hcm Hdone). cbn. lia.
        -- rewrite (checkCompletion_continue now hm Hdone). lia.
Qed.

Lemma complete_calls_events (cs : list Call) :
  forall h,
    isComplete h = true ->
    isComplete (calls h cs) = true
    /\ completeEvents (window (calls h cs)) = completeEvents (window h).
Proof.
  induction cs as [|c cs IH]; intros h Hc; simpl.
  - now split.
  - destruct (call_completeEvents h c) as [Hev Hmono].
    rewrite Hc in Hev. cbn [negb andb] in Hev.
    destruct (IH _ (Hmono Hc)) as [Hc' Hev']. split; [assumption | lia].
Qed.

Lemma calls_completeEvents (cs : list Call) :
  forall h,
    isComplete h = false ->
    completeEvents (window (calls h cs))
    = (completeEvents (window h)
       + (if isComplete (calls h cs) then 1 else 0))%nat.
Proof.
  induction cs as [|c cs IH]; intros h Hc; simpl.
  - rewrite Hc. lia.
  - destruct (call_completeEvents h c) as [Hev _]. rewrite Hc in Hev.
    cbn [negb andb] in Hev.
    destruct (isComplete (call h c)) eqn:Hc'.
    + destruct (complete_calls_events cs (call h c) Hc') as [-> ->]. lia.
    + rewrite (IH _ Hc'). lia.
Qed.

End Completion.

Section FrameCompletion.
Import JS Browser FrameHarness.
Local Open Scope float_scope.

Lemma frame_checkCompletion_isComplete (now : number) (h : BenchmarkHarness) :
  isComplete h = false ->
  isComplete (checkCompletion now h) = true <-> stop_condition now h.
Proof.
  intros Hc. unfold checkCompletion, stop_condition. cbv zeta.
  destruct (String.eqb_spec (durationMode h) "time") as [Ht|Ht].
  - rewrite Ht.
    destruct (PrimFloat.ltb (targetDuration h * 1000) (now - startTime h)).
    + split; [intros _; left; now split | reflexivity].
    + rewrite Hc. split; [discriminate|].
      intros [[_ H]|[H _]]; discriminate.
  - destruct (String.eqb_spec (durationMode h) "frames") as [Hf|Hf].
    + destruct (Z.leb_spec (targetFrames h) (Z.of_nat (frameCount h)))
        as [Hle|Hlt].
      * split; [intros _; right; now split | reflexivity].
      * rewrite Hc. split; [discriminate|].
        intros [[H _]|[_ H]]; [congruence | lia].
    + rewrite Hc. split; [discriminate|].
      intros [[H _]|[H _]]; congruence.
Qed.

Lemma frame_checkCompletion_cases (now : number) (h : BenchmarkHarness) :
  isComplete h = false ->
  (isComplete (checkCompletion now h) = true
   /\ checkCompletion now h = finalizeResults now (set_isComplete true h))
  \/ (isComplete (checkCompletion now h) = false
      /\ checkCompletion now h = h).
Proof.
  intros Hc. unfold checkCompletion. cbv zeta.
  match goal with |- context [if ?c then _ else _] => destruct c end.
  - left. now split.
  - right. now split.
Qed.

(** [endFrame] before completion: the duration is pushed unless this is the
    first frame, the frame is counted, then the stop condition is evaluated. *)
Lemma frame_endFrame_running (gpuTimeMs now : number) (h : BenchmarkHarness) :
  isComplete h = false ->
  exists hm,
    endFrame gpuTimeMs now h = checkCompletion now hm
    /\ frames (results hm)
       = (if (0 <? frameCount h)%nat
          then frames (results h) ++ [now - lastFrameTime h]
          else frames (results h))
    /\ gpuTimes (results hm)
       = (if ((0 <? frameCount h)%nat && PrimFloat.leb 0 gpuTimeMs)%bool
          then gpuTimes (results h) ++ [gpuTimeMs]
          else gpuTimes (results h))
    /\ frameCount hm = S (frameCount h)
    /\ isComplete hm = false
    /\ startTime hm = startTime h
    /\ durationMode hm = durationMode h
    /\ targetDuration hm = targetDuration h
    /\ targetFrames hm = targetFrames h
    /\ completeEvents (window hm) = completeEvents (window h).
Proof.
  intros Hc. unfold endFrame. rewrite Hc. cbv zeta.
  eexists. split; [reflexivity|].
  destruct (0 <? frameCount h)%nat, (PrimFloat.leb 0 gpuTimeMs);
    destruct (10 <=? _)%nat; cbn; repeat split; assumption.
Qed.

Lemma frame_call_completeEvents (h : BenchmarkHarness) (c : Call) :
  completeEvents (window (call h c))
  = (completeEvents (window h)
     + (if negb (isComplete h) && isComplete (call h c) then 1 else 0))%nat
  /\ (isComplete h = true -> isComplete (call h c) = true).
Proof.
  destruct (isComplete h) eqn:Hc.
  - cbn [negb andb]. rewrite Nat.add_0_r. split.
    + destruct c; cbn [call]; try reflexivity.
      * unfold startFrame. now rewrite Hc.
      * unfold endFrame. now rewrite Hc.
    + intros _. destruct c; cbn [call]; try assumption.
      * unfold startFrame. now rewrite Hc.
      * unfold endFrame. now rewrite Hc.
  - cbn [negb andb]. split; [|discriminate].
    assert (Hsame : forall h', isComplete h' = false ->
              completeEvents (window h') = completeEvents (window h) ->
              completeEvents (window h')
              = (completeEvents (window h)
                 + (if isComplete h' then 1 else 0))%nat).
    { intros h' -> ->. lia. }
    destruct c; cbn [call]; try (apply Hsame; [exact Hc | reflexivity]).
    + unfold startFrame. rewrite Hc.
      destruct (frameCount h =? 0)%nat; (apply Hsame; [exact Hc | reflexivity]).
    + destruct (frame_endFrame_running gpuTimeMs now h Hc)
        as (hm & -> & _ & _ & _ & Hcm & _ & _ & _ & _ & Hev).
      rewrite <- Hev.
      destruct (frame_checkCompletion_cases now hm Hcm) as [[-> ->]|[-> ->]].
      * cbn. lia.
      * lia.
Qed.

Lemma frame_complete_calls_events (cs : list Call) :
  forall h,
    isComplete h = true ->
    isComplete (calls h cs) = true
    /\ completeEvents (window (calls h cs)) = completeEvents (window h).
Proof.
  induction cs as [|c cs IH]; intros h Hc; simpl.
  - now split.
  - destruct (frame_call_completeEvents h c) as [Hev Hmono].
    rewrite Hc in Hev. cbn [negb andb] in Hev.
    destruct (IH _ (Hmono Hc)) as [Hc' Hev']. split; [assumption | lia].
Qed.

Lemma frame_calls_completeEvents (cs : list Call) :
  forall h,
    isComplete h = false ->
    completeEvents (window (calls h cs))
    = (completeEvents (window h)
       + (if isComplete (calls h cs) then 1 else 0))%nat.
Proof.
  induction cs as [|c cs IH]; intros h Hc; simpl.
  - rewrite Hc. lia.
  - destruct (frame_call_completeEvents h c) as [Hev _]. rewrite Hc in Hev.
    cbn [negb andb] in Hev.
    destruct (isComplete (call h c)) eqn:Hc'.
    + destruct (frame_complete_calls_events cs (call h c) Hc') as [-> ->]. lia.
    + rewrite (IH _ Hc'). lia.
Qed.

End FrameCompletion.

Section Finalization.
Import JS Browser.
Local Open Scope float_scope.

(** Claim C6, as the code has it.  At an [endFrame] of a recording harness the
    harness completes exactly when, in ['time'] mode, the time since recording
    began is strictly greater than [targetDuration * 1000] ms, or, in
    ['frames'] mode, the count of recorded frames (this one included) has
    reached [targetFrames].  On completion the phase is Complete, the
    statistics are those of the full sample sequences (this frame's sample
    included), the results are published and one completion event is
    dispatched; however the calls go on, the event is dispatched once and no
    more.  The frame-count harness stops on the same two conditions and
    dispatches its event once as well. *)
Theorem completion_and_finalization
  (h : Harness.BenchmarkHarness) (mark now : number) (cs : list Harness.Call) :
  Harness.isComplete h = false ->
  Harness.isWarmingUp h = false ->
  (Harness.isComplete (Harness.endFrame mark now h) = true <->
    (Harness.durationMode h = "time"%string
      /\ PrimFloat.ltb (Harness.targetDuration h * 1000)
           (now - Harness.startTime h) = true)
     \/ (Harness.durationMode h = "frames"%string
         /\ (Harness.targetFrames h
             <= Z.of_nat (S (Harness.activeFrameCount h)))%Z))
  /\ (Harness.isComplete (Harness.endFrame mark now h) = true ->
      Harness.phase (Harness.endFrame mark now h) = Harness.Complete
      /\ Harness.frames (Harness.results (Harness.endFrame mark now h))
         = Harness.frames (Harness.results h)
           ++ [now - Harness.lastFrameTime h]
      /\ Harness.totalTime (Harness.results (Harness.endFrame mark now h))
         = now - Harness.startTime h
      /\ Harness.meanFrameTime (Harness.results (Harness.endFrame mark now h))
         = Stats.mean
             (Harness.frames (Harness.results (Harness.endFrame mark now h)))
      /\ Harness.stdFrameTime (Harness.results (Harness.endFrame mark now h))
         = Stats.stdDev
             (Harness.frames (Harness.results (Harness.endFrame mark now h)))
      /\ Harness.p95FrameTime (Harness.results (Harness.endFrame mark now h))
         = Stats.p95
             (Harness.frames (Harness.results (Harness.endFrame mark now h)))
      /\ Harness.fps (Harness.results (Harness.endFrame mark now h))
         = 1000
           / Stats.mean
               (Harness.frames (Harness.results (Harness.endFrame mark now h)))
      /\ Harness.meanCpuTime (Harness.results (Harness.endFrame mark now h))
         = Stats.mean
             (Harness.cpuTimes (Harness.results (Harness.endFrame mark now h)))
      /\ (Harness.gpuTimes (Harness.results h) <> [] ->
          Harness.meanGpuTime (Harness.results (Harness.endFrame mark now h))
          = Stats.mean (Harness.gpuTimes (Harness.results h)))
      /\ BENCHMARK_RESULTS (Harness.window (Harness.endFrame mark now h)) = true
      /\ completeEvents (Harness.window (Harness.endFrame mark now h))
         = S (completeEvents (Harness.window h)))
  /\ (Harness.isComplete (Harness.endFrame mark now h) = false ->
      completeEvents (Harness.window (Harness.endFrame mark now h))
      = completeEvents (Harness.window h))
  /\ completeEvents (Harness.window (Harness.calls h cs))
     = (completeEvents (Harness.window h)
        + (if Harness.isComplete (Harness.calls h cs) then 1 else 0))%nat
  /\ (forall (f : FrameHarness.BenchmarkHarness) (gpuTimeMs : number)
             (fcs : list FrameHarness.Call),
        FrameHarness.isComplete f = false ->
        (FrameHarness.isComplete (FrameHarness.endFrame gpuTimeMs now f) = true
         <-> (FrameHarness.durationMode f = "time"%string
              /\ PrimFloat.ltb (FrameHarness.targetDuration f * 1000)
                   (now - FrameHarness.startTime f) = true)
             \/ (FrameHarness.durationMode f = "frames"%string
                 /\ (FrameHarness.targetFrames f
                     <= Z.of_nat (S (FrameHarness.frameCount f)))%Z))
        /\ completeEvents (FrameHarness.window (FrameHarness.calls f fcs))
           = (completeEvents (FrameHarness.window f)
              + (if FrameHarness.isComplete (FrameHarness.calls f fcs)
                 then 1 else 0))%nat).
Proof.
  intros Hc Hw.
  destruct (endFrame_recording mark now h Hc Hw)
    as (hm & Hend & Hfr & Hcp & Hgp & Hcount & Hcm & Hwm & Hst & Hmode & Htd
        & Htf & Hev & Hpub).
  assert (Hiff : Harness.isComplete (Harness.endFrame mark now h) = true <->
    (Harness.durationMode h = "time"%string
      /\ PrimFloat.ltb (Harness.targetDuration h * 1000)
           (now - Harness.startTime h) = true)
     \/ (Harness.durationMode h = "frames"%string
         /\ (Harness.targetFrames h
             <= Z.of_nat (S (Harness.activeFrameCount h)))%Z)).
  { rewrite Hend, (checkCompletion_isComplete now hm Hcm).
    unfold Harness.stop_condition.
    now rewrite Hmode, Htd, Hst, Htf, Hcount. }
  split; [exact Hiff|]. split; [|split; [|split]].
  - intros Hdone. rewrite Hend in Hdone |- *.
    apply (checkCompletion_isComplete now hm Hcm) in Hdone.
    rewrite (checkCompletion_stop now hm Hcm Hdone).
    assert (Hfr' : Harness.frames
                     (Harness.results (Harness.set_isComplete true hm)) <> []).
    { cbn. rewrite Hfr. now destruct (Harness.frames (Harness.results h)). }
    assert (Hcp' : Harness.cpuTimes
                     (Harness.results (Harness.set_isComplete true hm)) <> []).
    { cbn. rewrite Hcp. now destruct (Harness.cpuTimes (Harness.results h)). }
    destruct (finalizeResults_results now _ Hfr' Hcp')
      as (Hs1 & Hs2 & Hs3 & Htot & Hmean & Hstd & Hp95 & Hfps & Hcpu & Hgpu & _).
    cbv zeta in *.
    change (Harness.results (Harness.set_isComplete true hm))
      with (Harness.results hm) in Hs1, Hs2, Hs3.
    repeat split; try assumption.
    + congruence.
    + rewrite Htot. cbn. now rewrite Hst.
    + intros Hne. rewrite <- Hgp, <- Hs3. apply Hgpu. rewrite Hs3, Hgp.
      assumption.
    + cbn. now rewrite Hev.
  - intros Hcont. rewrite Hend in Hcont |- *.
    now rewrite (checkCompletion_continue now hm Hcont).
  - now apply calls_completeEvents.
  - intros f g fcs Hfc. split.
    + destruct (frame_endFrame_running g now f Hfc)
        as (fm & -> & _ & _ & Hn & Hfm & Hfst & Hfmode & Hftd & Hftf & _).
      rewrite (frame_checkCompletion_isComplete now fm Hfm).
      unfold FrameHarness.stop_condition.
      now rewrite Hfmode, Hftd, Hfst, Hftf, Hn.
    + now apply frame_calls_completeEvents.
Qed.

Lemma completion_and_finalization_witness :
  Harness.isComplete Harness.recording_example = false
  /\ Harness.isWarmingUp Harness.recording_example = false
  /\ completeEvents
       (Harness.window
          (Harness.calls Harness.recording_example
             [Harness.EndFrame 4002 4002; Harness.StartFrame 4010 4010;
              Harness.EndFrame 4011 4011]))
     = 1%nat.
Proof.
  split; [reflexivity|]. split; [reflexivity|].
  exact (proj1 (proj2 (proj2 (proj2
    (completion_and_finalization Harness.recording_example 4002 4002
       [Harness.EndFrame 4002 4002; Harness.StartFrame 4010 4010;
        Harness.EndFrame 4011 4011]
       eq_refl eq_refl))))).
Defined.

(** Claim C6 as stated fails at the boundary: with recording begun at 1001 ms and
    the default [targetDuration] of 3 s, an [endFrame] at 4001 ms has an
    elapsed time equal to the target, and the harness does not complete. *)
Lemma completion_at_exact_duration :
  Harness.durationMode Harness.recording_example = "time"%string
  /\ Harness.startTime Harness.recording_example = 1001
  /\ Harness.targetDuration Harness.recording_example = 3
  /\ PrimFloat.leb
       (Harness.targetDuration Harness.recording_example * 1000)
       (4001 - Harness.startTime Harness.recording_example)
     = true
  /\ Harness.isComplete (Harness.endFrame 4001 4001 Harness.recording_example)
     = false.
Proof. repeat split. Qed.

End Finalization.

Section WarmupExit.
Import JS Browser Harness.
Local Open Scope float_scope.

(** Claim C2, as the code has it.  When [startFrame] is called in Warmup and the
    time since Warmup entry exceeds the warm-up duration, the harness moves to
    Recording, resets the reference clocks to [now] and the recorded-frame
    count to 0, places the CPU start mark, and appends nothing itself; the
    [endFrame] of that same iteration then appends one sample to [frames]
    (the time since the transition) and one to [cpuTimes] (the span since the
    mark), and nothing to [gpuTimes]. *)
Theorem warmup_exit_frame_is_recorded
  (h : BenchmarkHarness) (now mark mark' now' : number) :
  isComplete h = false ->
  isWarmingUp h = true ->
  PrimFloat.ltb (warmupDuration h) (now - startTime h) = true ->
  phase (startFrame now mark h) = Recording
  /\ startTime (startFrame now mark h) = now
  /\ lastFrameTime (startFrame now mark h) = now
  /\ activeFrameCount (startFrame now mark h) = 0%nat
  /\ cpuStartMark (startFrame now mark h) = Some mark
  /\ samples (startFrame now mark h) = samples h
  /\ frames (results (endFrame mark' now' (startFrame now mark h)))
     = frames (results h) ++ [now' - now]
  /\ cpuTimes (results (endFrame mark' now' (startFrame now mark h)))
     = cpuTimes (results h) ++ [mark' - mark]
  /\ gpuTimes (results (endFrame mark' now' (startFrame now mark h)))
     = gpuTimes (results h).
Proof.
  intros Hc Hw Hexceeded.
  assert (Hstart : startFrame now mark h
            = set_cpuStartMark (Some mark)
                (set_activeFrameCount 0%nat
                   (set_window
                      (set_statusColor "#69db7c"
                         (set_statusText "Recording" (window h)))
                      (set_lastFrameTime now
                         (set_startTime now (set_isWarmingUp false h)))))).
  { unfold startFrame. now rewrite Hc, Hw, Hexceeded. }
  rewrite Hstart.
  repeat (split; [first [reflexivity | unfold phase; cbn; now rewrite Hc]|]).
  match goal with
  | |- context [endFrame mark' now' ?h1] =>
      destruct (endFrame_recording mark' now' h1 Hc eq_refl)
        as (hm & -> & Hfr & Hcp & Hgp & _)
  end.
  pose proof (checkCompletion_samples now' hm) as Hs.
  unfold samples in Hs. injection Hs as -> -> ->.
  repeat split; assumption.
Qed.

Lemma warmup_exit_frame_is_recorded_witness :
  isComplete warming_example = false
  /\ isWarmingUp warming_example = true
  /\ frames (results (endFrame 1002 1002 (startFrame 1001 1001 warming_example)))
     = frames (results warming_example) ++ [1002 - 1001].
Proof.
  split; [reflexivity|]. split; [reflexivity|].
  exact (proj1 (proj2 (proj2 (proj2 (proj2 (proj2 (proj2
    (warmup_exit_frame_is_recorded warming_example
       1001 1001 1002 1002 eq_refl eq_refl eq_refl)))))))).
Defined.

(** Claim C2 as stated fails: 1001 ms after Warmup entry, with the default warm-up
    of 1000 ms, [startFrame] ends warm-up and the [endFrame] of the same
    iteration appends a sample. *)
Lemma warmup_exit_frame_appends :
  isWarmingUp warming_example = true
  /\ startTime warming_example = 0
  /\ warmupDuration warming_example = 1000
  /\ PrimFloat.ltb (warmupDuration warming_example)
       (1001 - startTime warming_example) = true
  /\ frames (results warming_example) = []
  /\ frames (results (endFrame 1002 1002 (startFrame 1001 1001 warming_example)))
     = [1]
  /\ cpuTimes
       (results (endFrame 1002 1002 (startFrame 1001 1001 warming_example)))
     = [1].
Proof. repeat split. Qed.

End WarmupExit.

Section GpuTimes.
Import JS Browser Harness.
Local Open Scope float_scope.

Lemma phase_recording (h : BenchmarkHarness) :
  phase h = Recording <-> isComplete h = false /\ isWarmingUp h = false.
Proof.
  unfold phase.
  destruct (isComplete h), (isWarmingUp h), (initialized h);
    split; try discriminate; try (intros [? ?]; discriminate); auto.
Qed.

Lemma gpuInactive_false (h : BenchmarkHarness) :
  gpuInactive h = false <->
  gpuSupportTimestamp h = true /\ phase h = Recording.
Proof.
  rewrite phase_recording. unfold gpuInactive.
  destruct (gpuSupportTimestamp h), (isComplete h), (isWarmingUp h); cbn;
    intuition discriminate.
Qed.

Lemma app_one_neq {A} (l : list A) (x : A) : l ++ [x] <> l.
Proof.
  intros Heq. apply (f_equal (@length A)) in Heq.
  rewrite length_app in Heq. simpl in Heq. lia.
Qed.

(** Only [resolveGPUTimestamp] touches [gpuTimes]. *)
Lemma call_gpuTimes (h : BenchmarkHarness) (c : Call) :
  (forall s e, c <> ResolveGPUTimestamp s e) ->
  gpuTimes (results (call h c)) = gpuTimes (results h).
Proof.
  intros Hother. destruct c; cbn [call]; try reflexivity.
  - unfold initWebGPUTimestamps. now destruct hasTimestampQuery.
  - now destruct (Hother start end_).
  - unfold startFrame.
    destruct (isComplete h); [reflexivity|].
    destruct (isWarmingUp h); [|reflexivity].
    now destruct (PrimFloat.ltb _ _).
  - destruct (isComplete h) eqn:Hc.
    { unfold endFrame. now rewrite Hc. }
    destruct (isWarmingUp h) eqn:Hw.
    { unfold endFrame. now rewrite Hc, Hw. }
    destruct (endFrame_recording mark now h Hc Hw)
      as (hm & -> & _ & _ & Hgp & _).
    pose proof (checkCompletion_samples now hm) as Hs.
    unfold samples in Hs. injection Hs as _ _ ->. exact Hgp.
Qed.

Lemma resolveGPUTimestamp_cases (start end_ : number) (h : BenchmarkHarness) :
  (gpuSupportTimestamp h = true /\ phase h = Recording
   /\ PrimFloat.leb 0 ((end_ - start) / 1e6) = true
   /\ gpuTimes (results (fst (resolveGPUTimestamp start end_ h)))
      = gpuTimes (results h) ++ [(end_ - start) / 1e6]
   /\ snd (resolveGPUTimestamp start end_ h) = (end_ - start) / 1e6)
  \/ (gpuSupportTimestamp h = true /\ phase h = Recording
      /\ PrimFloat.leb 0 ((end_ - start) / 1e6) = false
      /\ fst (resolveGPUTimestamp start end_ h) = h
      /\ snd (resolveGPUTimestamp start end_ h) = (end_ - start) / 1e6)
  \/ ((gpuSupportTimestamp h = false \/ phase h <> Recording)
      /\ resolveGPUTimestamp start end_ h = (h, -1)).
Proof.
  unfold resolveGPUTimestamp.
  destruct (gpuInactive h) eqn:Hin.
  - right. right. split; [|reflexivity].
    destruct (gpuSupportTimestamp h) eqn:Hs; [|now left].
    right. intros Hrec.
    assert (gpuInactive h = false) by (apply gpuInactive_false; now split).
    congruence.
  - apply gpuInactive_false in Hin. destruct Hin as [Hs Hrec].
    cbv zeta. destruct (PrimFloat.leb 0 ((end_ - start) / 1e6)) eqn:Hd.
    + left. repeat split; assumption.
    + right. left. repeat split; assumption.
Qed.

Lemma checkCompletion_gpuSupportTimestamp (now : number) (h : BenchmarkHarness) :
  gpuSupportTimestamp (checkCompletion now h) = gpuSupportTimestamp h.
Proof.
  unfold checkCompletion. cbv zeta.
  match goal with |- context [if ?c then _ else _] => destruct c end;
    reflexivity.
Qed.

Lemma call_gpuSupportTimestamp (h : BenchmarkHarness) (c : Call) :
  gpuSupportTimestamp (call h c)
  = match c with
    | InitWebGPUTimestamps b => b
    | _ => gpuSupportTimestamp h
    end.
Proof.
  destruct c; cbn [call]; try reflexivity.
  - unfold initWebGPUTimestamps. now destruct hasTimestampQuery.
  - unfold resolveGPUTimestamp.
    destruct (gpuInactive h); [reflexivity|]. cbv zeta.
    now destruct (PrimFloat.leb _ _).
  - unfold startFrame.
    destruct (isComplete h); [reflexivity|].
    destruct (isWarmingUp h); [|reflexivity].
    now destruct (PrimFloat.ltb _ _).
  - unfold endFrame. destruct (isComplete h || isWarmingUp h); [reflexivity|].
    cbv zeta. rewrite checkCompletion_gpuSupportTimestamp.
    now destruct (10 <=? _)%nat.
Qed.

Lemma unsupported_calls (cs : list Call) :
  forall h,
    gpuSupportTimestamp h = false ->
    (forall c, In c cs -> c <> InitWebGPUTimestamps true) ->
    gpuSupportTimestamp (calls h cs) = false
    /\ gpuTimes (results (calls h cs)) = gpuTimes (results h).
Proof.
  induction cs as [|c cs IH]; intros h Hu Hno; simpl.
  - now split.
  - assert (Hu' : gpuSupportTimestamp (call h c) = false).
    { rewrite call_gpuSupportTimestamp. destruct c; try assumption.
      destruct hasTimestampQuery; [|reflexivity].
      now destruct (Hno (InitWebGPUTimestamps true) (or_introl eq_refl)). }
    destruct (IH (call h c) Hu') as [Hflag Hgp].
    { intros c' Hin. apply Hno. now right. }
    split; [assumption|]. rewrite Hgp.
    destruct c; try (apply call_gpuTimes; discriminate).
    cbn [call]. unfold resolveGPUTimestamp, gpuInactive. now rewrite Hu.
Qed.

(** Claim C7. A GPU duration is appended to [gpuTimes] if and only if
    [resolveGPUTimestamp] is called while the timestamp capability is
    supported, the phase is Recording and the computed duration is at least 0;
    it is then appended at the end.  A negative duration is returned but not
    recorded.  Once the device has been found to lack timestamp queries the
    flag stays unset whatever calls follow (short of negotiating again with a
    capable device), [gpuTimes] never changes, begin and end write nothing
    into the encoder and resolve returns -1.  The frame-count harness has
    no capability flag: its [endFrame] appends the [gpuTimeMs] it is handed
    exactly when the run is not complete, the frame is not the first and the
    value is at least 0 (the caller hands it -1 for an absent duration). *)
Theorem gpu_duration_recorded_iff (h : BenchmarkHarness) (c : Call) :
  (gpuTimes (results (call h c)) <> gpuTimes (results h) <->
     exists s e,
       c = ResolveGPUTimestamp s e
       /\ gpuSupportTimestamp h = true
       /\ phase h = Recording
       /\ PrimFloat.leb 0 ((e - s) / 1e6) = true)
  /\ (forall s e,
        gpuSupportTimestamp h = true ->
        phase h = Recording ->
        (PrimFloat.leb 0 ((e - s) / 1e6) = true ->
         gpuTimes (results (fst (resolveGPUTimestamp s e h)))
         = gpuTimes (results h) ++ [(e - s) / 1e6])
        /\ (PrimFloat.leb 0 ((e - s) / 1e6) = false ->
            fst (resolveGPUTimestamp s e h) = h)
        /\ snd (resolveGPUTimestamp s e h) = (e - s) / 1e6)
  /\ gpuSupportTimestamp (initWebGPUTimestamps false h) = false
  /\ (gpuSupportTimestamp h = false ->
      (forall s e, resolveGPUTimestamp s e h = (h, -1))
      /\ (forall encoder,
            beginGPUTimestamp h encoder = encoder
            /\ endGPUTimestamp h encoder = encoder)
      /\ (forall cs,
            (forall c', In c' cs -> c' <> InitWebGPUTimestamps true) ->
            gpuSupportTimestamp (calls h cs) = false
            /\ gpuTimes (results (calls h cs)) = gpuTimes (results h)))
  /\ (forall (f : FrameHarness.BenchmarkHarness) (gpuTimeMs now : number),
        FrameHarness.gpuTimes
          (FrameHarness.results (FrameHarness.endFrame gpuTimeMs now f))
        = if (negb (FrameHarness.isComplete f)
              && (0 <? FrameHarness.frameCount f)%nat
              && PrimFloat.leb 0 gpuTimeMs)%bool
          then FrameHarness.gpuTimes (FrameHarness.results f) ++ [gpuTimeMs]
          else FrameHarness.gpuTimes (FrameHarness.results f)).
Proof.
  split; [|split; [|split; [|split]]].
  - split.
    + intros Hchanged.
      destruct c;
        try (exfalso; apply Hchanged; apply call_gpuTimes; discriminate).
      exists start, end_. cbn [call] in Hchanged.
      destruct (resolveGPUTimestamp_cases start end_ h)
        as [(Hs & Hr & Hd & _)|[(_ & _ & _ & Hsame & _)|(_ & Hsame)]].
      * repeat split; assumption.
      * rewrite Hsame in Hchanged. now destruct Hchanged.
      * rewrite Hsame in Hchanged. now destruct Hchanged.
    + intros (s & e & -> & Hs & Hr & Hd). cbn [call].
      destruct (resolveGPUTimestamp_cases s e h)
        as [(_ & _ & _ & -> & _)|[(_ & _ & Hd' & _)|([Hs'|Hr'] & _)]];
        try congruence.
      apply app_one_neq.
  - intros s e Hs Hr.
    destruct (resolveGPUTimestamp_cases s e h)
      as [(_ & _ & Hd & Happ & Hret)|[(_ & _ & Hd & Hsame & Hret)|([Hs'|Hr'] & _)]];
      try congruence; repeat split; try assumption; congruence.
  - reflexivity.
  - intros Hu. split; [|split].
    + intros s e. unfold resolveGPUTimestamp, gpuInactive. now rewrite Hu.
    + intros encoder. unfold beginGPUTimestamp, endGPUTimestamp, gpuInactive.
      now rewrite Hu.
    + intros cs Hno. now apply unsupported_calls.
  - intros f g now.
    destruct (FrameHarness.isComplete f) eqn:Hc.
    { unfold FrameHarness.endFrame. now rewrite Hc. }
    destruct (frame_endFrame_running g now f Hc)
      as (fm & -> & _ & Hgp & _ & Hcm & _).
    cbn [negb andb]. rewrite <- Hgp.
    destruct (frame_checkCompletion_cases now fm Hcm) as [[_ ->]|[_ ->]];
      reflexivity.
Qed.

End GpuTimes.

Section FramesMode.
Import JS Browser FrameHarness.
Local Open Scope float_scope.

Variable T : Z.
Hypothesis T_positive : (1 <= T)%Z.

Lemma counted_unchanged (n : nat) (h h' : BenchmarkHarness) :
  counted T n h ->
  durationMode h' = durationMode h ->
  targetFrames h' = targetFrames h ->
  isComplete h' = isComplete h ->
  frameCount h' = frameCount h ->
  frames (results h') = frames (results h) ->
  counted T n h'.
Proof.
  unfold counted. intros (Hm & Ht & Hrun & Hdone) -> -> -> -> ->.
  repeat split; try assumption; try (now apply Hrun); now apply Hdone.
Qed.

Lemma counted_more (n m : nat) (h : BenchmarkHarness) :
  isComplete h = true -> (n <= m)%nat -> counted T n h -> counted T m h.
Proof.
  unfold counted. intros Hc Hnm (Hm & Ht & Hrun & Hdone).
  split; [assumption|]. split; [assumption|]. split.
  - congruence.
  - intros _. destruct (Hdone Hc). split; [lia | assumption].
Qed.

Lemma counted_call (n : nat) (h : BenchmarkHarness) (c : Call) :
  counted T n h -> counted T (n + endFrames [c]) (call h c).
Proof.
  intros Hinv.
  destruct (isComplete h) eqn:Hc.
  - apply (counted_more n); [|lia|].
    + now apply frame_complete_call.
    + apply (counted_unchanged n h); try assumption;
        destruct c; cbn [call]; try reflexivity;
        unfold startFrame, endFrame; now rewrite Hc.
  - destruct c; unfold endFrames; cbn [filter length call];
      rewrite ?Nat.add_0_r;
      try (apply (counted_unchanged n h); [assumption | reflexivity ..]).
    + apply (counted_unchanged n h); try assumption;
        unfold startFrame; rewrite Hc;
        now destruct (frameCount h =? 0)%nat.
    + destruct Hinv as (Hmode & Htarget & Hrun & _).
      destruct (Hrun Hc) as (Hcount & Hlt & Hlen).
      destruct (frame_endFrame_running gpuTimeMs now h Hc)
        as (hm & -> & Hfr & _ & Hn & Hcm & _ & Hm & _ & Ht & _).
      assert (Hlen' : length (frames (results hm)) = n).
      { rewrite Hfr, Hcount. destruct n as [|n]; cbn.
        - assumption.
        - rewrite length_app. cbn in *. lia. }
      destruct (frame_checkCompletion_cases now hm Hcm)
        as [[Hfin ->]|[Hgo Heq]].
      * pose proof (proj1 (frame_checkCompletion_isComplete now hm Hcm) Hfin)
          as [[Hbad _]|[_ Hreached]]; [congruence|].
        rewrite Ht, Htarget, Hn, Hcount in Hreached.
        split; [exact (eq_trans Hm Hmode)|].
        split; [exact (eq_trans Ht Htarget)|].
        split; [discriminate|].
        intros _. split; [lia|].
        change (Z.of_nat (length (frames (results hm))) = (T - 1)%Z).
        lia.
      * assert (Hnot : ~ stop_condition now hm).
        { intros Hs.
          apply (frame_checkCompletion_isComplete now hm Hcm) in Hs.
          congruence. }
        rewrite Heq.
        split; [congruence|]. split; [congruence|]. split.
        -- intros _. split; [lia|]. split; [|lia].
           destruct (Z.lt_ge_cases (Z.of_nat (n + 1)) T) as [|Hge];
             [assumption|].
           exfalso. apply Hnot. right. split; [congruence|].
           rewrite Ht, Htarget, Hn, Hcount. lia.
        -- congruence.
Qed.

Lemma counted_calls (cs : list Call) :
  forall n h, counted T n h -> counted T (n + endFrames cs) (calls h cs).
Proof.
  induction cs as [|c cs IH]; intros n h Hinv; simpl.
  - unfold endFrames. cbn. now rewrite Nat.add_0_r.
  - apply (counted_call n h c) in Hinv. apply IH in Hinv.
    replace (n + endFrames (c :: cs))%nat
      with (n + endFrames [c] + endFrames cs)%nat; [assumption|].
    unfold endFrames. cbn.
    destruct c; cbn; lia.
Qed.

End FramesMode.

Section FirstFrame.
Import JS Browser FrameHarness.
Local Open Scope float_scope.

Lemma frame_checkCompletion_keeps (now : number) (h : BenchmarkHarness) :
  frames (results (checkCompletion now h)) = frames (results h)
  /\ gpuTimes (results (checkCompletion now h)) = gpuTimes (results h)
  /\ frameCount (checkCompletion now h) = frameCount h.
Proof.
  unfold checkCompletion. cbv zeta.
  match goal with |- context [if ?c then _ else _] => destruct c end;
    repeat split.
Qed.

(** Claim C10. In the frame-count harness the first [endFrame] (at [frameCount]
    0) appends nothing and still counts the frame.  So for a harness that
    starts a run in ['frames'] mode with a target of at least 1, whatever
    calls are made, the run is complete exactly when [endFrame] has been
    called [targetFrames] times, and a complete run holds exactly
    [targetFrames - 1] entries in [frames]. *)
Theorem frames_mode_drops_first_frame
  (h0 : BenchmarkHarness) (cs : list Call) :
  durationMode h0 = "frames"%string ->
  (1 <= targetFrames h0)%Z ->
  isComplete h0 = false ->
  frameCount h0 = 0%nat ->
  frames (results h0) = [] ->
  (forall gpuTimeMs now,
      frames (results (endFrame gpuTimeMs now h0)) = []
      /\ gpuTimes (results (endFrame gpuTimeMs now h0)) = gpuTimes (results h0)
      /\ frameCount (endFrame gpuTimeMs now h0) = 1%nat)
  /\ (isComplete (calls h0 cs) = true <->
      (targetFrames h0 <= Z.of_nat (endFrames cs))%Z)
  /\ (isComplete (calls h0 cs) = true ->
      Z.of_nat (length (frames (results (calls h0 cs))))
      = (targetFrames h0 - 1)%Z).
Proof.
  intros Hmode Htarget Hc Hcount Hempty.
  assert (Hinit : counted (targetFrames h0) 0 h0).
  { unfold counted. rewrite Hempty. repeat split; try assumption; try lia.
    all: congruence. }
  apply (counted_calls (targetFrames h0) cs) in Hinit.
  destruct Hinit as (_ & _ & Hrun & Hdone). cbn [Nat.add] in *.
  split; [|split].
  - intros g now.
    destruct (frame_endFrame_running g now h0 Hc)
      as (hm & -> & Hfr & Hgp & Hn & _).
    destruct (frame_checkCompletion_keeps now hm) as (-> & -> & ->).
    rewrite Hcount in *. cbn in Hfr, Hgp. now rewrite Hfr, Hgp, Hn, Hempty.
  - split.
    + intros Hfin. now apply Hdone.
    + intros Hreached.
      destruct (isComplete (calls h0 cs)) eqn:Hfin; [reflexivity|].
      destruct (Hrun eq_refl) as (_ & Hlt & _). lia.
  - intros Hfin. now apply Hdone.
Qed.

Lemma frames_mode_drops_first_frame_witness :
  isComplete (calls (with_target 3) three_frames) = true
  /\ Z.of_nat (length (frames (results (calls (with_target 3) three_frames))))
     = (3 - 1)%Z.
Proof.
  split; [reflexivity|].
  apply (frames_mode_drops_first_frame (with_target 3) three_frames);
    first [reflexivity | simpl; lia].
Defined.

(** With the defaults: 500 frames are counted, 499 durations are kept. *)
Example default_run_keeps_499 :
  isComplete (calls (new fresh) (repeat (EndFrame (-1) 16) 500)) = true
  /\ length (frames (results (calls (new fresh) (repeat (EndFrame (-1) 16) 500))))
     = 499%nat
  /\ isComplete (calls (new fresh) (repeat (EndFrame (-1) 16) 499)) = false.
Proof. vm_compute. repeat split. Qed.

End FirstFrame.

Section ErrorStopsLoop.
Import JS Browser Scenario.
Local Open Scope float_scope.

Lemma run_stopped (f : Frame Harness.BenchmarkHarness)
  (sc : Scenario Harness.BenchmarkHarness) :
  isRunning sc = false -> run f sc = sc.
Proof. intros Hr. unfold run. now rewrite Hr. Qed.

Lemma animationFrames_stopped (fs : list (Frame Harness.BenchmarkHarness)) :
  forall sc : Scenario Harness.BenchmarkHarness,
    isRunning sc = false -> pendingFrame sc = None ->
    animationFrames sc fs = sc.
Proof.
  induction fs as [|f fs IH]; intros sc Hr Hp; simpl.
  - reflexivity.
  - unfold animationFrame at 1. rewrite Hp. now apply IH.
Qed.

(** Claim C8, as the code has it.  [reportError] records the message in the page
    and leaves the harness's flags, phase and samples as they were: the
    harness has no Errored state of its own.  It is the frame loop that stops
    accepting samples: when [render] rejects, the loop reports the error and
    stops itself, no animation frame remains requested, and every later
    animation frame or call of [run] leaves the scenario, and so the three
    sample sequences, unchanged. *)
Theorem error_stops_the_frame_loop
  (sc : Scenario Harness.BenchmarkHarness)
  (f : Frame Harness.BenchmarkHarness) (message : string)
  (fs : list (Frame Harness.BenchmarkHarness)) :
  isRunning sc = true ->
  pendingFrame sc = None ->
  snd (render f (Harness.startFrame (startNow f) (startMark f) (harness sc)))
  = Rejected message ->
  (forall (h : Harness.BenchmarkHarness) (m : string),
      Harness.samples (Harness.reportError m h) = Harness.samples h
      /\ Harness.phase (Harness.reportError m h) = Harness.phase h
      /\ Harness.isComplete (Harness.reportError m h) = Harness.isComplete h
      /\ Harness.isWarmingUp (Harness.reportError m h) = Harness.isWarmingUp h
      /\ BENCHMARK_ERROR (Harness.window (Harness.reportError m h)) = Some m)
  /\ isRunning (run f sc) = false
  /\ pendingFrame (run f sc) = None
  /\ BENCHMARK_ERROR (Harness.window (harness (run f sc))) = Some message
  /\ animationFrames (run f sc) fs = run f sc
  /\ (forall f', run f' (run f sc) = run f sc)
  /\ Harness.samples (harness (animationFrames (run f sc) fs))
     = Harness.samples (harness (run f sc)).
Proof.
  intros Hr Hp Hrej.
  assert (Hrun : isRunning (run f sc) = false
                 /\ pendingFrame (run f sc) = None
                 /\ BENCHMARK_ERROR (Harness.window (harness (run f sc)))
                    = Some message).
  { unfold run. rewrite Hr. cbn [negb]. cbv zeta. cbn [h_startFrame warmup_harness].
    destruct (render f _) as [h' outcome]. cbn [snd] in Hrej. subst outcome.
    unfold stop. cbn. rewrite Hp. now destruct (animationFrameId sc) as [[|id]|]. }
  destruct Hrun as (Hstopped & Hnone & Herr).
  split; [|split; [|split; [|split; [|split; [|split]]]]]; try assumption.
  - intros h m. repeat split.
  - now apply animationFrames_stopped.
  - intros f'. now apply run_stopped.
  - now rewrite animationFrames_stopped.
Qed.

Lemma error_stops_the_frame_loop_witness :
  isRunning started_example = true
  /\ Harness.samples
       (harness
          (animationFrames (run rejected_frame started_example) [later_frame]))
     = Harness.samples (harness (run rejected_frame started_example)).
Proof.
  split; [reflexivity|].
  exact (proj2 (proj2 (proj2 (proj2 (proj2 (proj2
    (error_stops_the_frame_loop started_example rejected_frame "lost"
       [later_frame] eq_refl eq_refl eq_refl))))))).
Defined.

(** Claim C8 as stated fails on the harness: after [reportError] a recording
    harness still appends the sample of the next [startFrame]/[endFrame]. *)
Lemma samples_accepted_after_reportError :
  Harness.frames
    (Harness.results (Harness.reportError "lost" Harness.recording_example))
  = []
  /\ Harness.frames
       (Harness.results
          (Harness.calls (Harness.reportError "lost" Harness.recording_example)
             [Harness.StartFrame 1010 1010; Harness.EndFrame 1016 1016]))
     = [15]
  /\ Harness.cpuTimes
       (Harness.results
          (Harness.calls (Harness.reportError "lost" Harness.recording_example)
             [Harness.StartFrame 1010 1010; Harness.EndFrame 1016 1016]))
     = [6].
Proof. repeat split. Qed.

End ErrorStopsLoop.

(** * Facts about the sweep *)

Section Sweep.
Import JS Runner.

(** A loop whose body never throws is a fold. *)
Lemma forEach_fold {A S : Type} (body : A -> S -> string + S)
  (step : A -> S -> S) (xs : list A) :
  forall s,
    (forall x s', In x xs -> body x s' = inr (step x s')) ->
    forEach xs body s = inr (fold_left (fun s' x => step x s') xs s).
Proof.
  induction xs as [|x xs IH]; intros s Hbody; simpl.
  - reflexivity.
  - rewrite (Hbody x s (or_introl eq_refl)). apply IH.
    intros y s' Hy. apply Hbody. now right.
Qed.

Lemma fold_left_push {A B : Type} (g : A -> list B) (xs : list A) :
  forall acc, fold_left (fun acc x => acc ++ g x) xs acc = acc ++ flat_map g xs.
Proof.
  induction xs as [|x xs IH]; intros acc; simpl.
  - now rewrite app_nil_r.
  - now rewrite IH, app_assoc.
Qed.

Variable page : Page.
Hypothesis goto_succeeds :
  forall api scenario count run e, page api scenario count run <> GotoThrew e.

Lemma trials_collect (api scenario : string) (count : Z) (runs : list nat) :
  forall acc,
    forEach runs (trial page api scenario count) acc
    = inr (acc
           ++ flat_map
                (fun run =>
                   match page api scenario count run with
                   | Fulfilled result => [run_of result]
                   | _ => []
                   end)
                runs).
Proof.
  intros acc.
  rewrite (forEach_fold _
             (fun run acc =>
                acc ++ match page api scenario count run with
                       | Fulfilled result => [run_of result]
                       | _ => []
                       end)).
  - now rewrite fold_left_push.
  - intros run acc' _. unfold trial.
    destruct (page api scenario count run) as [result|reason|e] eqn:Hp.
    + reflexivity.
    + now rewrite app_nil_r.
    + now destruct (goto_succeeds api scenario count run e).
Qed.

Lemma runPoint_pushes (api scenario : string) (count : Z) (data : list object) :
  runPoint page api scenario count data
  = inr (data ++ [entry page (api, scenario, count)]).
Proof.
  unfold runPoint. now rewrite trials_collect.
Qed.

Lemma sweep_total : sweep page = inr (map (entry page) points).
Proof.
  unfold sweep.
  rewrite (forEach_fold _
    (fun api data =>
       data ++ flat_map
                 (fun test =>
                    flat_map (fun count => [entry page (api, scenario test, count)])
                      (counts test))
                 testMatrix)).
  - rewrite fold_left_push. reflexivity.
  - intros api data _.
    rewrite (forEach_fold _
      (fun test data =>
         data ++ flat_map (fun count => [entry page (api, scenario test, count)])
                   (counts test))).
    + now rewrite fold_left_push.
    + intros test data' _.
      rewrite (forEach_fold _
        (fun count data => data ++ [entry page (api, scenario test, count)])).
      * now rewrite fold_left_push.
      * intros count data'' _. apply runPoint_pushes.
Qed.

Lemma successes_none (api scenario : string) (count : Z) :
  (forall run, (1 <= run <= NUM_RUNS)%nat ->
     exists reason, page api scenario count run = Rejected reason) ->
  successes page api scenario count = [].
Proof.
  intros Hall. unfold successes.
  assert (Hruns : forall run, In run (seq 1 NUM_RUNS) ->
            exists reason, page api scenario count run = Rejected reason).
  { intros run Hin. apply in_seq in Hin. apply Hall. lia. }
  induction (seq 1 NUM_RUNS) as [|run runs IH]; simpl.
  - reflexivity.
  - destruct (Hruns run (or_introl eq_refl)) as [reason ->]. simpl.
    apply IH. intros r Hr. apply Hruns. now right.
Qed.

End Sweep.

Section FailedPoint.
Import JS Runner.
Local Open Scope string_scope.

Lemma failed_entry_fields (api scenario : string) (count : Z) (k : string) :
  get k (aggregate api scenario count []) <> None ->
  In k ["api"; "scenario"; "count"; "error"].
Proof.
  cbn. 
  destruct (String.eqb_spec k "api"); [subst; cbn; tauto|].
  destruct (String.eqb_spec k "scenario"); [subst; cbn; tauto|].
  destruct (String.eqb_spec k "count"); [subst; cbn; tauto|].
  destruct (String.eqb_spec k "error"); [subst; cbn; tauto|].
  congruence.
Qed.

(** Claim C9, as the code has it.  When no navigation throws, the sweep ends with
    one report entry for every configuration point, in sweep order, each
    computed from that point's own trials.  A point whose ten trials are all
    rejected gets the entry [{api, scenario, count, error: "All runs failed"}]:
    it has the failure marker, it has no [runsSuccessful] field and no
    statistics field at all, and its CSV row leaves every statistics column
    empty. *)
Theorem failed_point_is_reported
  (page : Page) (toFixed2 : number -> string)
  (api scenario : string) (count : Z) :
  (forall a s c run e, page a s c run <> GotoThrew e) ->
  (forall run, (1 <= run <= NUM_RUNS)%nat ->
     exists reason, page api scenario count run = Rejected reason) ->
  sweep page = inr (map (entry page) points)
  /\ length (map (entry page) points) = 36%nat
  /\ entry page (api, scenario, count)
     = [("api", Str api); ("scenario", Str scenario); ("count", Int count);
        ("error", Str "All runs failed")]
  /\ get "error" (entry page (api, scenario, count))
     = Some (Str "All runs failed")
  /\ get "runsSuccessful" (entry page (api, scenario, count)) = None
  /\ (forall k, get k (entry page (api, scenario, count)) <> None ->
        In k ["api"; "scenario"; "count"; "error"])
  /\ csvRow toFixed2 (entry page (api, scenario, count))
     = api ++ "," ++ scenario ++ "," ++ NilZero.string_of_int (Z.to_int count)
       ++ ",,,,,,,,," ++ "All runs failed" ++ newline.
Proof.
  intros Hgoto Hfail.
  assert (Hentry : entry page (api, scenario, count)
                   = aggregate api scenario count []).
  { unfold entry. now rewrite successes_none. }
  split; [now apply sweep_total|]. split; [reflexivity|].
  rewrite Hentry. repeat split.
  apply failed_entry_fields.
Qed.

Lemma failed_point_is_reported_witness :
  sweep always_timeout = inr (map (entry always_timeout) points)
  /\ entry always_timeout ("webgl", "B", 100%Z)
     = [("api", Str "webgl"); ("scenario", Str "B"); ("count", Int 100);
        ("error", Str "All runs failed")].
Proof.
  assert (Hgoto : forall a s c run e, always_timeout a s c run <> GotoThrew e)
    by discriminate.
  assert (Hfail : forall run, (1 <= run <= NUM_RUNS)%nat ->
            exists reason, always_timeout "webgl" "B" 100%Z run = Rejected reason)
    by (intros run _; now exists "Timeout (120s)").
  destruct (failed_point_is_reported always_timeout (fun _ => "0.00")
              "webgl" "B" 100%Z Hgoto Hfail) as (Hsweep & _ & Hentry & _).
  split; assumption.
Defined.

(** Claim C9 as stated fails: the entry of a point whose trials all time out has no
    [runsSuccessful] field, so it does not read 0. *)
Lemma failed_entry_has_no_runsSuccessful :
  get "runsSuccessful" (entry always_timeout ("webgl", "A", 1%Z)) = None
  /\ entry always_timeout ("webgl", "A", 1%Z)
     = [("api", Str "webgl"); ("scenario", Str "A"); ("count", Int 1);
        ("error", Str "All runs failed")]
  /\ nth_error (map (entry always_timeout) points) 0
     = Some (entry always_timeout ("webgl", "A", 1%Z))
  /\ sweep always_timeout = inr (map (entry always_timeout) points).
Proof. repeat split. Qed.

End FailedPoint.
